(** * Strategist-small: RAG knowledge base, search tool and analysis crew

    A shallow embedding of [source.py].  The script is glue over three
    third-party platforms (LlamaIndex, Groq/LangChain, CrewAI).  The glue is
    modelled as it is written: every method and function is a computation in
    a state-and-exception monad over the interpreter state, and every call
    into a third-party package is made through the interface [Platform],
    whose operations are left abstract.

    Conventions.
    - A Python exception does not roll back earlier mutations: a computation
      returns its outcome ([Ok] or [Raise]) together with the state reached.
    - Library calls that touch files, the network or a model are operations
      on an abstract [World] and may raise.  Constructors of library
      configuration objects ([Agent(...)], [Document(...)],
      [index.as_query_engine(...)], ...) are modelled as total record
      constructors.
    - Every library call, [print], file write and assignment to the module
      global is appended to [trace], in program order. *)

From Stdlib Require Import ZArith String Ascii List DecimalString.
From stdpp Require Import base option list strings gmap.
Import ListNotations.

Local Open Scope string_scope.
Local Open Scope list_scope.

(** ** Python values *)

Record Exception := mkException { exc_class : string; exc_message : string }.

Definition ValueError (msg : string) : Exception := mkException "ValueError" msg.

Inductive Res (A : Type) : Type :=
| Ok (a : A)
| Raise (e : Exception).
Arguments Ok {A} a.
Arguments Raise {A} e.

(** [str(n)] for a non-negative [int]. *)
Definition str_of_nat (n : nat) : string := NilZero.string_of_uint (Nat.to_uint n).

(** [s * n] on strings. *)
Fixpoint str_mul (s : string) (n : nat) : string :=
  match n with
  | O => ""
  | S n' => s +:+ str_mul s n'
  end.

Definition nl : string := String (ascii_of_nat 10) EmptyString.

(** A triple-quoted literal, given line by line. *)
Definition py_lines (ls : list string) : string := String.concat nl ls.

(** ** The state-and-exception monad *)

Definition ST (S A : Type) : Type := S -> Res A * S.

Definition ret {S A : Type} (a : A) : ST S A := fun s => (Ok a, s).

Definition bind {S A B : Type} (m : ST S A) (k : A -> ST S B) : ST S B :=
  fun s =>
    match m s with
    | (Ok a, s') => k a s'
    | (Raise e, s') => (Raise e, s')
    end.

Definition raise {S A : Type} (e : Exception) : ST S A := fun s => (Raise e, s).

Notation "x <- c1 ;; c2" := (bind c1 (fun x => c2))
  (at level 100, c1 at next level, c2 at level 200, right associativity).
Notation "c1 ;; c2" := (bind c1 (fun _ => c2))
  (at level 100, c2 at level 200, right associativity).

(** [for x in xs: body(x)] *)
Fixpoint for_each {S A : Type} (xs : list A) (body : A -> ST S unit) : ST S unit :=
  match xs with
  | [] => ret tt
  | x :: xs' => body x ;; for_each xs' body
  end.

(** Results of [f] on each element, in order; stops at the first exception. *)
Fixpoint map_each {S A B : Type} (f : A -> ST S B) (xs : list A) : ST S (list B) :=
  match xs with
  | [] => ret []
  | x :: xs' => y <- f x ;; ys <- map_each f xs' ;; ret (y :: ys)
  end.

(** ** Library objects *)

(** [llama_index.core.Document]: the two fields the script sets. *)
Record Document := mkDocument { text : string; metadata : gmap string string }.

Inductive PDFReader := mkPDFReader.
Inductive DocxReader := mkDocxReader.
Inductive SimpleWebPageReader := mkSimpleWebPageReader.

Record HuggingFaceEmbedding := mkHuggingFaceEmbedding { model_name : string }.

Record LlamaGroq := mkLlamaGroq { llama_model : string; llama_api_key : option string }.

(** The node parser, as configured: its two chunking parameters. *)
Record SimpleNodeParser := mkSimpleNodeParser { chunk_size : Z; chunk_overlap : Z }.

(** The object returned by [index.as_query_engine(...)]. *)
Record QueryEngine (Index : Type) := mkQueryEngine
  { qe_index : Index; similarity_top_k : Z; response_mode : string }.
Arguments mkQueryEngine {Index}.
Arguments qe_index {Index}.
Arguments similarity_top_k {Index}.
Arguments response_mode {Index}.

Record ChatGroq := mkChatGroq
  { model : string; api_key : option string; temperature : Decimal.decimal }.

(** The functions of the module that are wrapped as tools. *)
Inductive ToolFunction := fn_search_knowledge_base.

(** What the decorator [@tool(name)] makes of a function. *)
Record Tool := mkTool { tool_name : string; tool_func : ToolFunction }.

Record Agent := mkAgent
  { role : string; goal : string; backstory : string;
    tools : list Tool; llm : ChatGroq; verbose : bool }.

(** [context] is [None] when the keyword is not passed. *)
#[warnings="-register-all"]
Inductive Task := mkTask
  (description : string) (agent : Agent) (expected_output : string)
  (context : option (list Task)).

Definition description (t : Task) : string := let '(mkTask d _ _ _) := t in d.
Definition agent (t : Task) : Agent := let '(mkTask _ a _ _) := t in a.
Definition expected_output (t : Task) : string := let '(mkTask _ _ e _) := t in e.
Definition context (t : Task) : option (list Task) := let '(mkTask _ _ _ c) := t in c.

Inductive Process := sequential | hierarchical.

Record Crew := mkCrew
  { agents : list Agent; tasks : list Task; process : Process; crew_verbose : bool }.

(** ** The third-party platforms *)

Class Platform := {
  World : Type;
  Node : Type;
  Index : Type;
  StorageContext : Type;
  Response : Type;
  CrewOutput : Type;
  (* llama_index.core.node_parser: defaults of [from_defaults] *)
  DEFAULT_CHUNK_SIZE : Z;
  DEFAULT_CHUNK_OVERLAP : Z;
  os_getenv : string -> World -> option string;
  Settings_set_embed_model : HuggingFaceEmbedding -> World -> World;
  Settings_set_llm : LlamaGroq -> World -> World;
  PDFReader_load_data : PDFReader -> string -> ST World (list Document);
  DocxReader_load_data : DocxReader -> string -> ST World (list Document);
  (* with open(path, 'r', encoding='utf-8') as f: f.read() *)
  open_read : string -> ST World string;
  SimpleWebPageReader_load_data : SimpleWebPageReader -> list string -> ST World (list Document);
  get_nodes_from_documents : SimpleNodeParser -> list Document -> ST World (list Node);
  VectorStoreIndex_init : list Node -> ST World Index;
  storage_context_persist : Index -> string -> ST World unit;
  StorageContext_from_defaults : string -> ST World StorageContext;
  load_index_from_storage : StorageContext -> ST World Index;
  query : QueryEngine Index -> string -> ST World Response;
  str_Response : Response -> string;
  kickoff : Crew -> ST World CrewOutput;
  str_CrewOutput : CrewOutput -> string;
  (* with open(name, "w") as f: f.write(content) *)
  open_write : string -> string -> ST World unit
}.

Section Program.
Context `{P : Platform}.

(** Keyword arguments left out take the library's defaults. *)
Definition SimpleNodeParser_from_defaults (chunk_size chunk_overlap : option Z)
  : SimpleNodeParser :=
  mkSimpleNodeParser (default DEFAULT_CHUNK_SIZE chunk_size)
                     (default DEFAULT_CHUNK_OVERLAP chunk_overlap).

Definition as_query_engine (idx : Index) (similarity_top_k : Z) (response_mode : string)
  : QueryEngine Index :=
  mkQueryEngine idx similarity_top_k response_mode.

(** The calls and effects of the script, with their arguments. *)
Inductive Event :=
| Call_print (s : string)
| Getenv (name : string)
| New_HuggingFaceEmbedding (e : HuggingFaceEmbedding)
| New_LlamaGroq (l : LlamaGroq)
| Set_Settings_embed_model (e : HuggingFaceEmbedding)
| Set_Settings_llm (l : LlamaGroq)
| New_PDFReader
| New_DocxReader
| New_SimpleWebPageReader
| New_Document (d : Document)
| Call_PDFReader_load_data (file : string)
| Call_DocxReader_load_data (file : string)
| Call_open_read (path : string)
| Call_SimpleWebPageReader_load_data (urls : list string)
| Call_from_defaults (chunk_size chunk_overlap : option Z)
| Call_get_nodes_from_documents (parser : SimpleNodeParser) (docs : list Document)
| New_VectorStoreIndex (nodes : list Node)
| Call_persist (idx : Index) (persist_dir : string)
| Call_StorageContext_from_defaults (persist_dir : string)
| Call_load_index_from_storage
| Call_as_query_engine (qe : QueryEngine Index)
| Call_query (qe : QueryEngine Index) (q : string)
| New_ChatGroq (c : ChatGroq)
| New_Agent (a : Agent)
| New_Task (t : Task)
| New_Crew (c : Crew)
| Call_kickoff (c : Crew)
| Call_open_write (name content : string)
| Set_global_query_engine (qe : QueryEngine Index).

(** The interpreter state: the module global [query_engine], the outside
    world and the trace of effects. *)
Record Env := mkEnv
  { query_engine : option (QueryEngine Index); world : World; trace : list Event }.

Definition M : Type -> Type := ST Env.

Definition log (e : Event) : M unit :=
  fun s => (Ok tt, mkEnv (query_engine s) (world s) (trace s ++ [e])).

(** A library call [op], recorded as [e]. *)
Definition call {A : Type} (e : Event) (op : ST World A) : M A :=
  fun s =>
    let '(r, w) := op (world s) in
    (r, mkEnv (query_engine s) w (trace s ++ [e])).

(** A library call that cannot raise. *)
Definition effect (e : Event) (f : World -> World) : M unit :=
  call e (fun w => (Ok tt, f w)).

(** A constructor call, recorded through [e]. *)
Definition construct {A : Type} (e : A -> Event) (a : A) : M A :=
  log (e a) ;; ret a.

Definition print (s : string) : M unit := log (Call_print s).

Definition getenv (name : string) : M (option string) :=
  fun s => (Ok (os_getenv name (world s)),
            mkEnv (query_engine s) (world s) (trace s ++ [Getenv name])).

Definition get_query_engine_global : M (option (QueryEngine Index)) :=
  fun s => (Ok (query_engine s), s).

Definition set_query_engine_global (qe : QueryEngine Index) : M unit :=
  fun s => (Ok tt, mkEnv (Some qe) (world s) (trace s ++ [Set_global_query_engine qe])).

(** ** PART 1: [KnowledgeBaseBuilder] *)

Record KnowledgeBaseBuilder := mkKnowledgeBaseBuilder
  { pdf_reader : PDFReader; docx_reader : DocxReader;
    documents : list Document; index : option Index }.

(** A method runs on [self] and the interpreter state. *)
Definition Method : Type -> Type := ST (KnowledgeBaseBuilder * Env).

Definition module {A : Type} (m : M A) : Method A :=
  fun '(self, env) => let '(r, env') := m env in (r, (self, env')).

Definition get_self : Method KnowledgeBaseBuilder :=
  fun '(self, env) => (Ok self, (self, env)).

(** [self] with its list [documents] replaced. *)
Definition with_documents (self : KnowledgeBaseBuilder) (docs : list Document)
  : KnowledgeBaseBuilder :=
  mkKnowledgeBaseBuilder (pdf_reader self) (docx_reader self) docs (index self).

(** [self.documents.extend(docs)] *)
Definition documents_extend (docs : list Document) : Method unit :=
  fun '(self, env) => (Ok tt, (with_documents self (documents self ++ docs), env)).

(** [self.documents.append(doc)] *)
Definition documents_append (doc : Document) : Method unit :=
  fun '(self, env) => (Ok tt, (with_documents self (documents self ++ [doc]), env)).

(** [self.index = idx] *)
Definition set_index (idx : Index) : Method unit :=
  fun '(self, env) =>
    (Ok tt, (mkKnowledgeBaseBuilder (pdf_reader self) (docx_reader self)
               (documents self) (Some idx), env)).

(** [obj.method(...)] from module-level code: the object after the call is
    returned with the result. *)
Definition invoke {A : Type} (self : KnowledgeBaseBuilder) (m : Method A)
  : M (A * KnowledgeBaseBuilder) :=
  fun env => let '(r, (self', env')) := m (self, env) in
             match r with
             | Ok a => (Ok (a, self'), env')
             | Raise e => (Raise e, env')
             end.

Definition KnowledgeBaseBuilder_init (groq_api_key : option string)
  : M KnowledgeBaseBuilder :=
  embed <- construct New_HuggingFaceEmbedding
             (mkHuggingFaceEmbedding "BAAI/bge-small-en-v1.5") ;;
  effect (Set_Settings_embed_model embed) (Settings_set_embed_model embed) ;;
  l <- construct New_LlamaGroq (mkLlamaGroq "llama-3.3-70b-versatile" groq_api_key) ;;
  effect (Set_Settings_llm l) (Settings_set_llm l) ;;
  pdf <- construct (fun _ => New_PDFReader) mkPDFReader ;;
  docx <- construct (fun _ => New_DocxReader) mkDocxReader ;;
  ret (mkKnowledgeBaseBuilder pdf docx [] None).

Definition load_pdfs (pdf_paths : list string) : Method unit :=
  for_each pdf_paths (fun path =>
    self <- get_self ;;
    docs <- module (call (Call_PDFReader_load_data path)
                         (PDFReader_load_data (pdf_reader self) path)) ;;
    documents_extend docs) ;;
  module (print ("Loaded " +:+ str_of_nat (length pdf_paths) +:+ " PDF files")).

Definition load_docx (docx_paths : list string) : Method unit :=
  for_each docx_paths (fun path =>
    self <- get_self ;;
    docs <- module (call (Call_DocxReader_load_data path)
                         (DocxReader_load_data (docx_reader self) path)) ;;
    documents_extend docs) ;;
  module (print ("Loaded " +:+ str_of_nat (length docx_paths) +:+ " DOCX files")).

Definition load_text_files (txt_paths : list string) : Method unit :=
  for_each txt_paths (fun path =>
    content <- module (call (Call_open_read path) (open_read path)) ;;
    doc <- module (construct New_Document
                     (mkDocument content {[ "source" := path ]})) ;;
    documents_append doc) ;;
  module (print ("Loaded " +:+ str_of_nat (length txt_paths) +:+ " text files")).

Definition add_web_content (urls : list string) : Method unit :=
  loader <- module (construct (fun _ => New_SimpleWebPageReader) mkSimpleWebPageReader) ;;
  docs <- module (call (Call_SimpleWebPageReader_load_data urls)
                       (SimpleWebPageReader_load_data loader urls)) ;;
  documents_extend docs ;;
  module (print ("Loaded " +:+ str_of_nat (length urls) +:+ " web pages")).

Definition build_index (persist_dir : option string) : Method Index :=
  let persist_dir := default "./storage" persist_dir in
  self <- get_self ;;
  module (print ("Building index from " +:+ str_of_nat (length (documents self))
                 +:+ " documents...")) ;;
  parser <- module (construct (fun _ => Call_from_defaults (Some 512%Z) (Some 50%Z))
                      (SimpleNodeParser_from_defaults (Some 512%Z) (Some 50%Z))) ;;
  self <- get_self ;;
  nodes <- module (call (Call_get_nodes_from_documents parser (documents self))
                        (get_nodes_from_documents parser (documents self))) ;;
  idx <- module (call (New_VectorStoreIndex nodes) (VectorStoreIndex_init nodes)) ;;
  set_index idx ;;
  module (call (Call_persist idx persist_dir) (storage_context_persist idx persist_dir)) ;;
  module (print ("Index built and saved to " +:+ persist_dir)) ;;
  ret idx.

Definition load_index (persist_dir : option string) : Method Index :=
  let persist_dir := default "./storage" persist_dir in
  storage_context <- module (call (Call_StorageContext_from_defaults persist_dir)
                                  (StorageContext_from_defaults persist_dir)) ;;
  idx <- module (call Call_load_index_from_storage
                      (load_index_from_storage storage_context)) ;;
  set_index idx ;;
  module (print "Index loaded from disk") ;;
  ret idx.

Definition get_query_engine (similarity_top_k : option Z)
  : Method (QueryEngine Index) :=
  let similarity_top_k := default 5%Z similarity_top_k in
  self <- get_self ;;
  match index self with
  | None => raise (ValueError "Index not built. Call build_index() first.")
  | Some idx =>
      module (construct Call_as_query_engine
                (as_query_engine idx similarity_top_k "compact"))
  end.

(** ** PART 2: the RAG tool *)

Definition search_knowledge_base (q : string) : M string :=
  qe <- get_query_engine_global ;;
  match qe with
  | None => ret "Error: Knowledge base not initialized"
  | Some qe =>
      response <- call (Call_query qe q) (query qe q) ;;
      ret (str_Response response)
  end.

(** The name [search_knowledge_base] after [@tool("Knowledge Base Search")]. *)
Definition search_knowledge_base_tool : Tool :=
  mkTool "Knowledge Base Search" fn_search_knowledge_base.

(** ** PART 3: [AnalysisCrewBuilder] *)

Record AnalysisCrewBuilder := mkAnalysisCrewBuilder { self_llm : ChatGroq }.

(** The literal [0.7]. *)
Definition lit_0_7 : Decimal.decimal :=
  Decimal.Decimal (Decimal.Pos (Decimal.D0 Decimal.Nil)) (Decimal.D7 Decimal.Nil).

Definition AnalysisCrewBuilder_init (groq_api_key : option string)
  : M AnalysisCrewBuilder :=
  l <- construct New_ChatGroq
         (mkChatGroq "llama-3.3-70b-versatile" groq_api_key lit_0_7) ;;
  ret (mkAnalysisCrewBuilder l).

Definition create_research_agent (self : AnalysisCrewBuilder) : M Agent :=
  construct New_Agent
    (mkAgent
       "Research Analyst"
       "Extract and synthesize relevant information from the knowledge base"
       (py_lines
          ["You are an expert research analyst with deep experience ";
           "            in information retrieval and synthesis. You excel at finding relevant ";
           "            information and presenting it clearly."])
       [search_knowledge_base_tool]
       (self_llm self)
       true).

Definition create_data_analyst_agent (self : AnalysisCrewBuilder) : M Agent :=
  construct New_Agent
    (mkAgent
       "Data Analyst"
       "Analyze data and identify patterns, trends, and insights"
       (py_lines
          ["You are a skilled data analyst who can interpret ";
           "            complex information and extract meaningful insights. You use the ";
           "            knowledge base to support your analysis."])
       [search_knowledge_base_tool]
       (self_llm self)
       true).

Definition create_report_writer_agent (self : AnalysisCrewBuilder) : M Agent :=
  construct New_Agent
    (mkAgent
       "Report Writer"
       "Create clear, comprehensive reports based on research and analysis"
       (py_lines
          ["You are an expert technical writer who creates ";
           "            well-structured, insightful reports. You synthesize information ";
           "            from multiple sources into coherent narratives."])
       [search_knowledge_base_tool]
       (self_llm self)
       true).

Definition create_analysis_crew (self : AnalysisCrewBuilder) (research_topic : string)
  : M Crew :=
  researcher <- create_research_agent self ;;
  analyst <- create_data_analyst_agent self ;;
  writer <- create_report_writer_agent self ;;
  research_task <- construct New_Task
    (mkTask
       (py_lines
          ["Research the following topic using the knowledge base:";
           "            " +:+ research_topic;
           "            ";
           "            Find all relevant information, key facts, and important details."])
       researcher
       "Comprehensive research findings with key information"
       None) ;;
  analysis_task <- construct New_Task
    (mkTask
       (py_lines
          ["Analyze the research findings to identify:";
           "            - Key patterns and trends";
           "            - Important insights";
           "            - Potential implications";
           "            - Areas requiring attention";
           "            ";
           "            Use the knowledge base to support your analysis."])
       analyst
       "Detailed analysis with insights and patterns"
       (Some [research_task])) ;;
  report_task <- construct New_Task
    (mkTask
       (py_lines
          ["Create a comprehensive report that includes:";
           "            1. Executive Summary";
           "            2. Key Findings";
           "            3. Detailed Analysis";
           "            4. Conclusions and Recommendations";
           "            ";
           "            The report should be well-structured and professional."])
       writer
       "Professional report with all sections"
       (Some [research_task; analysis_task])) ;;
  crew <- construct New_Crew
    (mkCrew [researcher; analyst; writer]
            [research_task; analysis_task; report_task]
            sequential
            true) ;;
  ret crew.

(** ** PART 4: the main workflow *)

(** A method call whose result is dropped; the object after the call. *)
Definition invoke_ {A : Type} (self : KnowledgeBaseBuilder) (m : Method A)
  : M KnowledgeBaseBuilder :=
  r <- invoke self m ;; ret (snd r).

Definition research_topic_literal : string :=
  py_lines
    [""; 
     "    Analyze the key trends and patterns in the documents related to ";
     "    [YOUR SPECIFIC TOPIC]. Identify the main themes, important findings, ";
     "    and provide strategic recommendations.";
     "    "].

Definition main : M unit :=
  GROQ_API_KEY <- getenv "GROQ_API_KEY" ;;
  (* STEP 1: Build Knowledge Base *)
  print (str_mul "=" 70) ;;
  print "STEP 1: Building Knowledge Base" ;;
  print (str_mul "=" 70) ;;
  kb_builder <- KnowledgeBaseBuilder_init GROQ_API_KEY ;;
  kb_builder <- invoke_ kb_builder
    (load_pdfs ["./data/report1.pdf"; "./data/analysis.pdf"]) ;;
  kb_builder <- invoke_ kb_builder
    (load_docx ["./data/document1.docx"]) ;;
  kb_builder <- invoke_ kb_builder
    (load_text_files ["./data/notes.txt"; "./data/summary.txt"]) ;;
  kb_builder <- invoke_ kb_builder
    (add_web_content ["https://example.com/article1"; "https://example.com/article2"]) ;;
  kb_builder <- invoke_ kb_builder (build_index (Some "./storage")) ;;
  r <- invoke kb_builder (get_query_engine (Some 5%Z)) ;;
  set_query_engine_global (fst r) ;;
  (* STEP 2: Run CrewAI Analysis *)
  print (nl +:+ str_mul "=" 70) ;;
  print "STEP 2: Running CrewAI Analysis" ;;
  print (str_mul "=" 70) ;;
  crew_builder <- AnalysisCrewBuilder_init GROQ_API_KEY ;;
  let research_topic := research_topic_literal in
  crew <- create_analysis_crew crew_builder research_topic ;;
  result <- call (Call_kickoff crew) (kickoff crew) ;;
  (* STEP 3: Output Results *)
  print (nl +:+ str_mul "=" 70) ;;
  print "ANALYSIS COMPLETE" ;;
  print (str_mul "=" 70) ;;
  print (str_CrewOutput result) ;;
  call (Call_open_write "analysis_report.md" (str_CrewOutput result))
       (open_write "analysis_report.md" (str_CrewOutput result)) ;;
  print (nl +:+ "Report saved to analysis_report.md").

End Program.

(** ** The four kinds of source and what the libraries yield for them *)

Inductive Source := PDF | DOCX | TXT | WEB.

Section Sources.
Context `{P : Platform}.

(** The loading method of each kind of source. *)
Definition load (src : Source) : list string -> Method unit :=
  match src with
  | PDF => load_pdfs
  | DOCX => load_docx
  | TXT => load_text_files
  | WEB => add_web_content
  end.

(** The document made of a text file. *)
Definition text_document (path content : string) : Document :=
  mkDocument content {[ "source" := path ]}.

(** The documents the libraries produce for a list of paths or URLs: each
    PDF and each Word file parsed by its reader, each text file read, the
    web pages fetched in one call; in the order of the list. *)
Definition fetched (src : Source) (self : KnowledgeBaseBuilder) (paths : list string)
  : ST World (list Document) :=
  match src with
  | PDF =>
      dss <- map_each (PDFReader_load_data (pdf_reader self)) paths ;; ret (concat dss)
  | DOCX =>
      dss <- map_each (DocxReader_load_data (docx_reader self)) paths ;; ret (concat dss)
  | TXT =>
      map_each (fun path => content <- open_read path ;;
                            ret (text_document path content)) paths
  | WEB => SimpleWebPageReader_load_data mkSimpleWebPageReader paths
  end.

(** The builder and the interpreter state a method call ends in. *)
Definition self_after {A : Type} (x : Res A * (KnowledgeBaseBuilder * Env))
  : KnowledgeBaseBuilder := fst (snd x).

Definition env_after {A : Type} (x : Res A * (KnowledgeBaseBuilder * Env)) : Env :=
  snd (snd x).

(** The frame of loading: the documents of [self0] are still there, in
    front, and the index is the one of [self0]. *)
Definition grown_from (self0 : KnowledgeBaseBuilder) (st : KnowledgeBaseBuilder * Env)
  : Prop :=
  documents self0 `prefix_of` documents (fst st) /\ index (fst st) = index self0.

End Sources.

(** ** The order of the workflow

    The effects of a complete run of [main], phase by phase, for the
    values the platforms returned during the run. *)

Section Workflow.
Context `{P : Platform}.

Definition banner : string := str_mul "=" 70.

Definition start_events (key : option string) : list Event :=
  [ Getenv "GROQ_API_KEY";
    Call_print banner; Call_print "STEP 1: Building Knowledge Base"; Call_print banner;
    New_HuggingFaceEmbedding (mkHuggingFaceEmbedding "BAAI/bge-small-en-v1.5");
    Set_Settings_embed_model (mkHuggingFaceEmbedding "BAAI/bge-small-en-v1.5");
    New_LlamaGroq (mkLlamaGroq "llama-3.3-70b-versatile" key);
    Set_Settings_llm (mkLlamaGroq "llama-3.3-70b-versatile" key);
    New_PDFReader; New_DocxReader ].

(** Load files from all sources. *)
Definition load_events (notes summary : string) : list Event :=
  [ Call_PDFReader_load_data "./data/report1.pdf";
    Call_PDFReader_load_data "./data/analysis.pdf";
    Call_print "Loaded 2 PDF files";
    Call_DocxReader_load_data "./data/document1.docx";
    Call_print "Loaded 1 DOCX files";
    Call_open_read "./data/notes.txt";
    New_Document (text_document "./data/notes.txt" notes);
    Call_open_read "./data/summary.txt";
    New_Document (text_document "./data/summary.txt" summary);
    Call_print "Loaded 2 text files";
    New_SimpleWebPageReader;
    Call_SimpleWebPageReader_load_data
      ["https://example.com/article1"; "https://example.com/article2"];
    Call_print "Loaded 2 web pages" ].

(** Chunk, embed and index them through the library; persist the index. *)
Definition index_events (docs : list Document) (nodes : list Node) (idx : Index)
  : list Event :=
  [ Call_print ("Building index from " +:+ str_of_nat (length docs) +:+ " documents...");
    Call_from_defaults (Some 512%Z) (Some 50%Z);
    Call_get_nodes_from_documents (mkSimpleNodeParser 512 50) docs;
    New_VectorStoreIndex nodes;
    Call_persist idx "./storage";
    Call_print "Index built and saved to ./storage" ].

(** Set the global query engine. *)
Definition engine_events (idx : Index) : list Event :=
  [ Call_as_query_engine (mkQueryEngine idx 5 "compact");
    Set_global_query_engine (mkQueryEngine idx 5 "compact") ].

(** Define the three agent roles, their tasks and the crew. *)
Definition crew_events (key : option string) (crew : Crew) : list Event :=
  [ Call_print (nl +:+ banner); Call_print "STEP 2: Running CrewAI Analysis"; Call_print banner;
    New_ChatGroq (mkChatGroq "llama-3.3-70b-versatile" key lit_0_7) ]
  ++ map New_Agent (agents crew) ++ map New_Task (tasks crew) ++ [ New_Crew crew ].

(** Run the sequential task pipeline. *)
Definition run_events (crew : Crew) : list Event := [ Call_kickoff crew ].

(** Call_print the textual result and save that same text. *)
Definition output_events (result : CrewOutput) : list Event :=
  [ Call_print (nl +:+ banner); Call_print "ANALYSIS COMPLETE"; Call_print banner;
    Call_print (str_CrewOutput result);
    Call_open_write "analysis_report.md" (str_CrewOutput result);
    Call_print (nl +:+ "Report saved to analysis_report.md") ].

Definition workflow_trace (key : option string) (notes summary : string)
    (docs : list Document) (nodes : list Node) (idx : Index)
    (crew : Crew) (result : CrewOutput) : list Event :=
  start_events key ++ load_events notes summary ++ index_events docs nodes idx
  ++ engine_events idx ++ crew_events key crew ++ run_events crew
  ++ output_events result.

(** The events that create or run the crew. *)
Definition crew_event (e : Event) : bool :=
  match e with
  | New_Agent _ | New_Task _ | New_Crew _ | Call_kickoff _ => true
  | _ => false
  end.

(** [env'] is [env] after the effects [evs], the module global untouched. *)
Definition emits (env env' : Env) (evs : list Event) : Prop :=
  trace env' = trace env ++ evs /\ query_engine env' = query_engine env.

End Workflow.

(** ** What a computation may emit, and in what order *)

Section Effects.
Context `{P : Platform}.

(** The events of the knowledge-base side: calls into LlamaIndex, file
    reads and [print]. *)
Definition kb_event (e : Event) : bool :=
  match e with
  | Call_print _
  | New_HuggingFaceEmbedding _ | New_LlamaGroq _
  | Set_Settings_embed_model _ | Set_Settings_llm _
  | New_PDFReader | New_DocxReader | New_SimpleWebPageReader | New_Document _
  | Call_PDFReader_load_data _ | Call_DocxReader_load_data _ | Call_open_read _
  | Call_SimpleWebPageReader_load_data _
  | Call_from_defaults _ _ | Call_get_nodes_from_documents _ _
  | New_VectorStoreIndex _ | Call_persist _ _
  | Call_StorageContext_from_defaults _ | Call_load_index_from_storage
  | Call_as_query_engine _ => true
  | _ => false
  end.

Definition is_set_global (e : Event) : bool :=
  match e with Set_global_query_engine _ => true | _ => false end.

Definition is_kickoff (e : Event) : bool :=
  match e with Call_kickoff _ => true | _ => false end.

Definition is_open_write (e : Event) : bool :=
  match e with Call_open_write _ _ => true | _ => false end.

Definition is_persist (e : Event) : bool :=
  match e with Call_persist _ _ => true | _ => false end.

(** The knowledge-base events other than persisting the index. *)
Definition kb_read_event (e : Event) : bool := kb_event e && negb (is_persist e).

(** The events of the chunking step: asking for the node parser and
    splitting documents into nodes. *)
Definition chunking_event (e : Event) : bool :=
  match e with
  | Call_from_defaults _ _ | Call_get_nodes_from_documents _ _ => true
  | _ => false
  end.

(** No [held] event occurs in [l] before the first [gate] event. *)
Fixpoint gated (gate held : Event -> bool) (l : list Event) : bool :=
  match l with
  | [] => true
  | e :: l' => if gate e then true else negb (held e) && gated gate held l'
  end.

(** In any outcome, [m] only appends to the trace read by [tr], and what
    it appends satisfies [Q]. *)
Definition emits_only {S A : Type} (tr : S -> list Event) (Q : Event -> Prop)
    (m : ST S A) : Prop :=
  forall s, exists new, tr (snd (m s)) = tr s ++ new /\ Forall Q new.

(** In any outcome, [m] leaves the component [g] of the state as it was. *)
Definition keeps {S A G : Type} (g : S -> G) (m : ST S A) : Prop :=
  forall s, g (snd (m s)) = g s.

(** The trace and the module global, seen from a method. *)
Definition method_trace (st : KnowledgeBaseBuilder * Env) : list Event := trace (snd st).

Definition method_global (st : KnowledgeBaseBuilder * Env)
  : option (QueryEngine Index) := query_engine (snd st).

(** In any outcome, what [m] appends to the trace is [gated]. *)
Definition ordered {A : Type} (gate held : Event -> bool) (m : M A) : Prop :=
  forall s, exists new, trace (snd (m s)) = trace s ++ new
                        /\ gated gate held new = true.

(** The library calls and constructions of a loading call whose items all
    succeed, for the paths given and the documents obtained. *)
Definition items_trace (src : Source) (paths : list string) (docs : list Document)
  : list Event :=
  match src with
  | PDF => map Call_PDFReader_load_data paths
  | DOCX => map Call_DocxReader_load_data paths
  | TXT =>
      concat (zip_with (fun path doc => [Call_open_read path; New_Document doc])
                paths docs)
  | WEB => [ New_SimpleWebPageReader; Call_SimpleWebPageReader_load_data paths ]
  end.

(** The message a loading call prints when it is done. *)
Definition loaded_message (src : Source) (n : nat) : string :=
  "Loaded " +:+ str_of_nat n +:+
  match src with
  | PDF => " PDF files"
  | DOCX => " DOCX files"
  | TXT => " text files"
  | WEB => " web pages"
  end.

(** The effects of a successful loading call. *)
Definition load_trace (src : Source) (paths : list string) (docs : list Document)
  : list Event :=
  items_trace src paths docs ++ [Call_print (loaded_message src (length paths))].

(** A method that, in any outcome, emits knowledge-base events only and
    leaves the module global alone. *)
Definition kb_only {A : Type} (m : Method A) : Prop :=
  emits_only method_trace (fun e => kb_event e = true) m /\ keeps method_global m.

(** The same, and the method does not persist an index either. *)
Definition kb_without_persist {A : Type} (m : Method A) : Prop :=
  emits_only method_trace (fun e => kb_read_event e = true) m
  /\ keeps method_global m.

(** Reading one text file into a document. *)
Definition read_text (path : string) : ST World Document :=
  content <- open_read path ;; ret (text_document path content).

(** The library call made for one item of a file source. *)
Definition reader_call (src : Source) (path : string) : Event :=
  match src with
  | PDF => Call_PDFReader_load_data path
  | DOCX => Call_DocxReader_load_data path
  | TXT => Call_open_read path
  | WEB => Call_SimpleWebPageReader_load_data [path]
  end.

End Effects.

(** ** A small concrete platform

    The file [./data/missing.pdf] does not exist; every other call
    succeeds.  The world is the journal of what was written.  The chunking defaults are those of [llama_index.core]:
    [DEFAULT_CHUNK_SIZE = 1024], [SENTENCE_CHUNK_OVERLAP = 200]. *)

Definition FileNotFoundError (path : string) : Exception :=
  mkException "FileNotFoundError" path.

Definition demo_missing (path : string) : bool := String.eqb path "./data/missing.pdf".

Definition demo_pdf_docs (file : string) : list Document :=
  [mkDocument ("pdf page 1 of " +:+ file) ∅; mkDocument ("pdf page 2 of " +:+ file) ∅].

#[local] Instance demo_platform : Platform := {|
  World := list string;
  Node := string;
  Index := list string;
  StorageContext := string;
  Response := string;
  CrewOutput := string;
  DEFAULT_CHUNK_SIZE := 1024;
  DEFAULT_CHUNK_OVERLAP := 200;
  os_getenv := fun name _ => if String.eqb name "GROQ_API_KEY" then Some "gsk-demo" else None;
  Settings_set_embed_model := fun _ w => w;
  Settings_set_llm := fun _ w => w;
  PDFReader_load_data := fun _ file w =>
    if demo_missing file then (Raise (FileNotFoundError file), w)
    else (Ok (demo_pdf_docs file), w);
  DocxReader_load_data := fun _ file w => (Ok [mkDocument ("docx " +:+ file) ∅], w);
  open_read := fun path w => (Ok ("text of " +:+ path), w);
  SimpleWebPageReader_load_data := fun _ urls w =>
    (Ok (map (fun u => mkDocument ("page " +:+ u) ∅) urls), w);
  get_nodes_from_documents := fun _ docs w => (Ok (map text docs), w);
  VectorStoreIndex_init := fun nodes w => (Ok nodes, w);
  storage_context_persist := fun _ dir w => (Ok tt, w ++ [dir]);
  StorageContext_from_defaults := fun dir w => (Ok dir, w);
  load_index_from_storage := fun _ w => (Ok [], w);
  query := fun qe q w => (Ok ("answer to " +:+ q), w);
  str_Response := fun r => r;
  kickoff := fun _ w => (Ok "the report", w);
  str_CrewOutput := fun r => r;
  open_write := fun name _ w => (Ok tt, w ++ [name])
|}.

Definition demo_env : Env := mkEnv None [] [].

Definition demo_builder : KnowledgeBaseBuilder :=
  mkKnowledgeBaseBuilder mkPDFReader mkDocxReader [] None.

Definition demo_loaded_builder : KnowledgeBaseBuilder :=
  mkKnowledgeBaseBuilder mkPDFReader mkDocxReader
    [text_document "./data/notes.txt" "hello"] None.

Definition demo_engine : QueryEngine Index := mkQueryEngine ["hello"] 5 "compact".

Definition demo_ready_env : Env := mkEnv (Some demo_engine) [] [].

(** A platform on which some calls fail: reading [./data/missing.pdf] or
    [./data/missing.txt], fetching any list of URLs that contains
    [https://down.example], persisting to [/readonly], and the query
    [crash]. *)
Definition faulty_platform : Platform := {|
  World := list string;
  Node := string;
  Index := list string;
  StorageContext := string;
  Response := string;
  CrewOutput := string;
  DEFAULT_CHUNK_SIZE := 1024;
  DEFAULT_CHUNK_OVERLAP := 200;
  os_getenv := fun name _ => if String.eqb name "GROQ_API_KEY" then Some "gsk-demo" else None;
  Settings_set_embed_model := fun _ w => w;
  Settings_set_llm := fun _ w => w;
  PDFReader_load_data := fun _ file w =>
    if String.eqb file "./data/missing.pdf" then (Raise (FileNotFoundError file), w)
    else (Ok (demo_pdf_docs file), w);
  DocxReader_load_data := fun _ file w => (Ok [mkDocument ("docx " +:+ file) ∅], w);
  open_read := fun path w =>
    if String.eqb path "./data/missing.txt" then (Raise (FileNotFoundError path), w)
    else (Ok ("text of " +:+ path), w);
  SimpleWebPageReader_load_data := fun _ urls w =>
    if existsb (String.eqb "https://down.example") urls
    then (Raise (mkException "ConnectionError" "https://down.example"), w)
    else (Ok (map (fun u => mkDocument ("page " +:+ u) ∅) urls), w);
  get_nodes_from_documents := fun _ docs w => (Ok (map text docs), w);
  VectorStoreIndex_init := fun nodes w => (Ok nodes, w);
  storage_context_persist := fun _ dir w =>
    if String.eqb dir "/readonly" then (Raise (mkException "PermissionError" dir), w)
    else (Ok tt, w ++ [dir]);
  StorageContext_from_defaults := fun dir w => (Ok dir, w);
  load_index_from_storage := fun ctx w => (Ok [ctx], w);
  query := fun qe q w =>
    if String.eqb q "crash" then (Raise (mkException "TimeoutError" q), w)
    else (Ok ("answer to " +:+ q), w);
  str_Response := fun r => r;
  kickoff := fun _ w => (Ok "the report", w);
  str_CrewOutput := fun r => r;
  open_write := fun name _ w => (Ok tt, w ++ [name])
|}.

Section FaultyStates.
#[local] Existing Instance faulty_platform | 0.

Definition faulty_env : Env := mkEnv None [] [].

Definition faulty_builder : KnowledgeBaseBuilder :=
  mkKnowledgeBaseBuilder mkPDFReader mkDocxReader
    [text_document "./data/notes.txt" "hello"] None.

Definition faulty_engine : QueryEngine Index := mkQueryEngine ["hello"] 5 "compact".

Definition faulty_ready_env : Env := mkEnv (Some faulty_engine) [] [].

End FaultyStates.

(** * Properties *)

Section MonadFacts.
Context {S : Type}.

Lemma bind_preserves {A B : Type} (I : S -> Prop) (m : ST S A) (k : A -> ST S B) (s : S) :
  I (snd (m s)) -> (forall a s1, I s1 -> I (snd (k a s1))) -> I (snd (bind m k s)).
Proof.
  unfold bind. destruct (m s) as [[a|e] s1]; simpl; auto.
Qed.

Lemma for_each_preserves {A : Type} (I : S -> Prop) (body : A -> ST S unit) (xs : list A) :
  (forall x s, I s -> I (snd (body x s))) ->
  forall s, I s -> I (snd (for_each xs body s)).
Proof.
  intros Hbody. induction xs as [|x xs IH]; intros s Hs; simpl.
  - exact Hs.
  - apply bind_preserves; auto.
Qed.

End MonadFacts.

Section KnowledgeBaseFacts.
Context `{P : Platform}.

Lemma grown_from_refl self env : grown_from self (self, env).
Proof. split; reflexivity. Qed.

Lemma module_grown {A : Type} self0 (m : M A) st :
  grown_from self0 st -> grown_from self0 (snd (module m st)).
Proof.
  destruct st as [self env]. unfold module. destruct (m env) as [r env']. auto.
Qed.

Lemma get_self_grown self0 st :
  grown_from self0 st -> grown_from self0 (snd (get_self st)).
Proof. destruct st as [self env]. auto. Qed.

Lemma documents_extend_grown self0 docs st :
  grown_from self0 st -> grown_from self0 (snd (documents_extend docs st)).
Proof.
  destruct st as [self env]. intros [Hp Hi]. split; simpl in *.
  - by apply prefix_app_r.
  - exact Hi.
Qed.

Lemma documents_append_grown self0 doc st :
  grown_from self0 st -> grown_from self0 (snd (documents_append doc st)).
Proof.
  destruct st as [self env]. intros [Hp Hi]. split; simpl in *.
  - by apply prefix_app_r.
  - exact Hi.
Qed.

Lemma load_grown src paths self0 st :
  grown_from self0 st -> grown_from self0 (snd (load src paths st)).
Proof.
  intros Hst. destruct src; simpl;
    unfold load_pdfs, load_docx, load_text_files, add_web_content.
  - apply bind_preserves; [|intros; by apply module_grown].
    apply for_each_preserves; [|done]. intros path s Hs.
    apply bind_preserves; [by apply get_self_grown|]. intros self s1 Hs1.
    apply bind_preserves; [by apply module_grown|]. intros docs s2 Hs2.
    by apply documents_extend_grown.
  - apply bind_preserves; [|intros; by apply module_grown].
    apply for_each_preserves; [|done]. intros path s Hs.
    apply bind_preserves; [by apply get_self_grown|]. intros self s1 Hs1.
    apply bind_preserves; [by apply module_grown|]. intros docs s2 Hs2.
    by apply documents_extend_grown.
  - apply bind_preserves; [|intros; by apply module_grown].
    apply for_each_preserves; [|done]. intros path s Hs.
    apply bind_preserves; [by apply module_grown|]. intros content s1 Hs1.
    apply bind_preserves; [by apply module_grown|]. intros doc s2 Hs2.
    by apply documents_append_grown.
  - apply bind_preserves; [by apply module_grown|]. intros loader s1 Hs1.
    apply bind_preserves; [by apply module_grown|]. intros docs s2 Hs2.
    apply bind_preserves; [by apply documents_extend_grown|]. intros u s3 Hs3.
    by apply module_grown.
Qed.

(** C10. Whatever the kind of source, the list of paths and the outcome of
    the call (normal return or exception), loading only appends: the
    documents held before the call are a prefix of [self.documents] after
    it, and [self.index] is what it was. *)
Theorem load_only_appends (src : Source) (paths : list string)
    (self : KnowledgeBaseBuilder) (env : Env) :
  documents self `prefix_of` documents (self_after (load src paths (self, env)))
  /\ index (self_after (load src paths (self, env))) = index self.
Proof.
  apply (load_grown src paths self (self, env)), grown_from_refl.
Qed.

Lemma with_documents_same self : with_documents self (documents self) = self.
Proof. by destruct self. Qed.

Lemma map_each_cons_inv {W A B : Type} (f : A -> ST W B) x xs w ys w' :
  map_each f (x :: xs) w = (Ok ys, w') ->
  exists y ys' w1, f x w = (Ok y, w1) /\ map_each f xs w1 = (Ok ys', w') /\ ys = y :: ys'.
Proof.
  simpl. unfold bind. destruct (f x w) as [[y|e] w1]; [|discriminate].
  destruct (map_each f xs w1) as [[ys'|e] w2] eqn:Hxs; [|discriminate].
  unfold ret. intros [= <- <-]. by exists y, ys', w1.
Qed.

(** The loop of [load_pdfs] and [load_docx], for a reader [op] kept in the
    field [rdr] of the builder. *)
Lemma reader_loop_ok {R : Type} (rdr : KnowledgeBaseBuilder -> R) (ev : string -> Event)
    (op : R -> string -> ST World (list Document)) :
  (forall self d, rdr (with_documents self d) = rdr self) ->
  forall paths self env dss w',
    map_each (op (rdr self)) paths (world env) = (Ok dss, w') ->
    exists env',
      for_each paths (fun path =>
        self <- get_self ;;
        docs <- module (call (ev path) (op (rdr self) path)) ;;
        documents_extend docs) (self, env)
      = (Ok tt, (with_documents self (documents self ++ concat dss), env'))
      /\ world env' = w'.
Proof.
  intros Hrdr. induction paths as [|path paths IH]; intros self env dss w' H.
  - injection H as <- <-. exists env. simpl.
    by rewrite app_nil_r, with_documents_same.
  - apply map_each_cons_inv in H as (ds & dss' & w1 & H1 & H2 & ->).
    specialize (IH (with_documents self (documents self ++ ds))
                   (mkEnv (query_engine env) w1 (trace env ++ [ev path])) dss' w').
    rewrite Hrdr in IH. destruct (IH H2) as (env' & Hrun & Hw).
    exists env'. split; [|exact Hw].
    cbn [for_each]. unfold bind at 1. unfold bind at 1.
    cbn [get_self]. unfold bind at 1. unfold module at 1, call at 1.
    rewrite H1. cbn [documents_extend].
    rewrite Hrun. cbn [concat with_documents pdf_reader docx_reader documents index].
    by rewrite app_assoc.
Qed.

Lemma text_loop_ok paths :
  forall self env docs w',
    map_each (fun path => content <- open_read path ;;
                          ret (text_document path content)) paths (world env)
    = (Ok docs, w') ->
    exists env',
      for_each paths (fun path =>
        content <- module (call (Call_open_read path) (open_read path)) ;;
        doc <- module (construct New_Document
                         (mkDocument content {[ "source" := path ]})) ;;
        documents_append doc) (self, env)
      = (Ok tt, (with_documents self (documents self ++ docs), env'))
      /\ world env' = w'.
Proof.
  induction paths as [|path paths IH]; intros self env docs w' H.
  - injection H as <- <-. exists env. simpl.
    by rewrite app_nil_r, with_documents_same.
  - apply map_each_cons_inv in H as (d & docs' & w1 & H1 & H2 & ->).
    unfold bind in H1. destruct (open_read path (world env)) as [[content|e] w1'] eqn:Hr;
      [|discriminate].
    injection H1 as <- <-.
    specialize (IH (with_documents self (documents self ++ [text_document path content]))
                   (mkEnv (query_engine env) w1'
                      ((trace env ++ [Call_open_read path])
                         ++ [New_Document (text_document path content)]))
                   docs' w' H2).
    destruct IH as (env' & Hrun & Hw).
    exists env'. split; [|exact Hw].
    cbn [for_each]. unfold bind at 1. unfold bind at 1.
    unfold module at 1, call at 1. rewrite Hr.
    unfold bind at 1. cbn. fold (text_document path content).
    rewrite Hrun. cbn [with_documents pdf_reader docx_reader documents index].
    by rewrite <- app_assoc.
Qed.

(** C1. For each of the four kinds of source and every list of paths or
    URLs: when the library parses, reads or fetches every item of the list,
    the loading call returns normally and [self.documents] is the old list
    followed by the documents obtained, in order. *)
Theorem load_appends_fetched (src : Source) (paths : list string)
    (self : KnowledgeBaseBuilder) (env : Env) (docs : list Document) (w' : World) :
  fetched src self paths (world env) = (Ok docs, w') ->
  exists env',
    load src paths (self, env)
    = (Ok tt, (with_documents self (documents self ++ docs), env'))
    /\ world env' = w'.
Proof.
  destruct src; simpl; intros H.
  - unfold bind in H.
    destruct (map_each _ paths (world env)) as [[dss|e] w1] eqn:Hm; [|discriminate].
    injection H as <- <-.
    destruct (reader_loop_ok pdf_reader Call_PDFReader_load_data PDFReader_load_data
                (fun _ _ => eq_refl) paths self env dss w1 Hm) as (env1 & Hrun & Hw).
    eexists. unfold load_pdfs. unfold bind at 1. rewrite Hrun. simpl. split; [reflexivity|done].
  - unfold bind in H.
    destruct (map_each _ paths (world env)) as [[dss|e] w1] eqn:Hm; [|discriminate].
    injection H as <- <-.
    destruct (reader_loop_ok docx_reader Call_DocxReader_load_data DocxReader_load_data
                (fun _ _ => eq_refl) paths self env dss w1 Hm) as (env1 & Hrun & Hw).
    eexists. unfold load_docx. unfold bind at 1. rewrite Hrun. simpl. split; [reflexivity|done].
  - destruct (text_loop_ok paths self env docs w' H) as (env1 & Hrun & Hw).
    eexists. unfold load_text_files. unfold bind at 1. rewrite Hrun. simpl.
    split; [reflexivity|done].
  - eexists. unfold add_web_content, bind, module, construct, call, log, bind, ret. simpl.
    rewrite H. simpl. split; reflexivity.
Qed.

End KnowledgeBaseFacts.

Section IndexFacts.
Context `{P : Platform}.

(** Membership of an event in an explicit list, by cases. *)
Ltac in_cases H :=
  simpl in H;
  repeat (destruct H as [H|H]; [try discriminate H|]);
  try contradiction.

(** C3. For every builder and interpreter state: when the library chunks
    the documents, builds the vector index over the nodes and persists it,
    [build_index] chunks exactly the documents loaded so far, builds the
    index over the resulting nodes, persists it to [persist_dir]
    ([./storage] when the argument is left out), stores it in [self.index]
    and returns it; [self.documents] is untouched. *)
Theorem build_index_builds_persists_returns (persist_dir : option string)
    (self : KnowledgeBaseBuilder) (env : Env)
    (nodes : list Node) (idx : Index) (w1 w2 w3 : World) :
  get_nodes_from_documents (mkSimpleNodeParser 512 50) (documents self) (world env)
    = (Ok nodes, w1) ->
  VectorStoreIndex_init nodes w1 = (Ok idx, w2) ->
  storage_context_persist idx (default "./storage" persist_dir) w2 = (Ok tt, w3) ->
  build_index persist_dir (self, env)
  = (Ok idx,
     (mkKnowledgeBaseBuilder (pdf_reader self) (docx_reader self)
        (documents self) (Some idx),
      mkEnv (query_engine env) w3
        (trace env ++
         [ Call_print ("Building index from " +:+ str_of_nat (length (documents self))
                  +:+ " documents...");
           Call_from_defaults (Some 512%Z) (Some 50%Z);
           Call_get_nodes_from_documents (mkSimpleNodeParser 512 50) (documents self);
           New_VectorStoreIndex nodes;
           Call_persist idx (default "./storage" persist_dir);
           Call_print ("Index built and saved to " +:+ default "./storage" persist_dir) ]))).
Proof.
  intros Hnodes Hidx Hpersist.
  unfold build_index, bind, get_self, module, construct, print, log, call, set_index,
    bind, ret, SimpleNodeParser_from_defaults.
  cbn [default from_option id world trace query_engine documents pdf_reader docx_reader index].
  rewrite Hnodes. cbn [world trace query_engine].
  rewrite Hidx. cbn [world trace query_engine documents pdf_reader docx_reader index].
  rewrite Hpersist. cbn [world trace query_engine].
  by rewrite <- !app_assoc.
Qed.

(** C2, as the code has it.  Whatever the library's defaults and whatever
    the outcome of the call, the chunking step of [build_index] is exactly
    two calls, in this order: it asks once for the library's node parser,
    with the two keyword arguments [chunk_size=512] and [chunk_overlap=50],
    and it chunks the builder's documents once, with that parser.  The
    chunking parameters are 512 and 50, not the defaults. *)
Theorem build_index_chunking_parameters (persist_dir : option string)
    (self : KnowledgeBaseBuilder) (env : Env) :
  exists new : list Event,
    trace (env_after (build_index persist_dir (self, env))) = trace env ++ new
    /\ List.filter chunking_event new
       = [ Call_from_defaults (Some 512%Z) (Some 50%Z);
           Call_get_nodes_from_documents (mkSimpleNodeParser 512 50) (documents self) ]
    /\ In (Call_from_defaults (Some 512%Z) (Some 50%Z)) new
    /\ In (Call_get_nodes_from_documents (mkSimpleNodeParser 512 50) (documents self)) new
    /\ (forall a b, In (Call_from_defaults a b) new -> a = Some 512%Z /\ b = Some 50%Z)
    /\ (forall parser docs, In (Call_get_nodes_from_documents parser docs) new ->
          chunk_size parser = 512%Z /\ chunk_overlap parser = 50%Z
          /\ docs = documents self).
Proof.
  unfold env_after, build_index, bind, get_self, module, construct, print, log, call,
    set_index, bind, ret, SimpleNodeParser_from_defaults.
  cbn [default from_option id world trace query_engine documents pdf_reader docx_reader index].
  destruct (get_nodes_from_documents _ _ _) as [[nodes|e] w1];
    cbn [world trace query_engine];
    [destruct (VectorStoreIndex_init nodes w1) as [[idx|e] w2];
     cbn [world trace query_engine documents pdf_reader docx_reader index];
     [destruct (storage_context_persist idx _ w2) as [[[]|e] w3]|]|];
    cbn [snd fst world trace query_engine documents pdf_reader docx_reader index];
    rewrite <- ?app_assoc; cbn [app];
    (eexists; split; [reflexivity|]);
    (split; [reflexivity|]);
    (split; [simpl; tauto|]); (split; [simpl; tauto|]);
    (split; [intros a b H|intros parser docs H]);
    in_cases H; injection H as <- <-; auto.
Qed.

(** C8, as the code has it.  [get_query_engine] raises [ValueError]
    exactly when [self.index] is [None]; otherwise it returns the query
    engine of that index with the given [similarity_top_k] (5 when left
    out) and response mode [compact]; either way the builder is left as it
    was.  [self.index] is [None] on a new builder; [load_index] assigns it
    exactly when it succeeds; [build_index] assigns it as soon as the
    index is constructed, before persisting, whether or not persisting
    then succeeds. *)
Theorem get_query_engine_spec (similarity_top_k : option Z)
    (self : KnowledgeBaseBuilder) (env : Env) :
  ((exists msg st, get_query_engine similarity_top_k (self, env)
                   = (Raise (ValueError msg), st))
   <-> index self = None)
  /\ (forall idx, index self = Some idx ->
        exists env',
          get_query_engine similarity_top_k (self, env)
          = (Ok (mkQueryEngine idx (default 5%Z similarity_top_k) "compact"),
             (self, env')))
  /\ self_after (get_query_engine similarity_top_k (self, env)) = self
  /\ (forall groq_api_key env0, exists kb env1,
        KnowledgeBaseBuilder_init groq_api_key env0 = (Ok kb, env1)
        /\ index kb = None)
  /\ (forall persist_dir,
        index (self_after (load_index persist_dir (self, env)))
        = match fst (load_index persist_dir (self, env)) with
          | Ok idx => Some idx
          | Raise _ => index self
          end)
  /\ (forall persist_dir,
        index (self_after (build_index persist_dir (self, env)))
        = match get_nodes_from_documents (mkSimpleNodeParser 512 50)
                  (documents self) (world env) with
          | (Ok nodes, w1) =>
              match VectorStoreIndex_init nodes w1 with
              | (Ok idx, _) => Some idx
              | (Raise _, _) => index self
              end
          | (Raise _, _) => index self
          end).
Proof.
  split; [|split; [|split; [|split; [|split]]]].
  - unfold get_query_engine, bind, get_self, module, construct, log, raise,
      bind, ret, as_query_engine.
    destruct (index self) as [idx|] eqn:Hidx; cbn.
    + split; [intros (msg & st & [=])|discriminate].
    + split; [reflexivity|intros _; eexists _, _; reflexivity].
  - unfold get_query_engine, bind, get_self, module, construct, log, raise,
      bind, ret, as_query_engine.
    intros idx Hidx. rewrite Hidx. cbn. eexists. reflexivity.
  - unfold self_after, get_query_engine, bind, get_self, module, construct, log, raise,
      bind, ret, as_query_engine.
    by destruct (index self).
  - intros groq_api_key env0. eexists _, _. split; reflexivity.
  - intros persist_dir.
    unfold self_after, load_index, bind, get_self, module, print, log, call, set_index,
      bind, ret.
    cbn [world trace query_engine].
    destruct (StorageContext_from_defaults _ _) as [[ctx|e] w1];
      cbn [world trace query_engine]; [|reflexivity].
    by destruct (load_index_from_storage ctx w1) as [[idx|e] w2].
  - intros persist_dir.
    unfold self_after, build_index, bind, get_self, module, construct, print, log, call,
      set_index, bind, ret, SimpleNodeParser_from_defaults.
    cbn [default from_option id world trace query_engine documents pdf_reader
         docx_reader index].
    destruct (get_nodes_from_documents _ _ _) as [[nodes|e] w1];
      cbn [world trace query_engine]; [|reflexivity].
    destruct (VectorStoreIndex_init nodes w1) as [[idx|e] w2];
      cbn [world trace query_engine documents pdf_reader docx_reader index];
      [|reflexivity].
    by destruct (storage_context_persist idx _ w2) as [[[]|e] w3].
Qed.

End IndexFacts.

Section ToolFacts.
Context `{P : Platform}.

(** C7. For every query string: when the global query engine is set and
    the engine answers the query, [search_knowledge_base] returns the
    string form of that answer; the answer is the one the engine (hence
    the index it was made from) gives for this very query, and the global
    is left as it was. *)
Theorem search_knowledge_base_answers (q : string) (env : Env)
    (qe : QueryEngine Index) (response : Response) (w' : World) :
  query_engine env = Some qe ->
  query qe q (world env) = (Ok response, w') ->
  search_knowledge_base q env
  = (Ok (str_Response response),
     mkEnv (Some qe) w' (trace env ++ [Call_query qe q])).
Proof.
  intros Hqe Hq.
  unfold search_knowledge_base, bind, get_query_engine_global, call, ret.
  rewrite Hqe. cbn. rewrite Hq. by rewrite Hqe.
Qed.

(** C9. For every query string: when the global query engine is [None],
    [search_knowledge_base] does not raise and does not query; it returns
    the error string and changes nothing. *)
Theorem search_knowledge_base_uninitialized (q : string) (env : Env) :
  query_engine env = None ->
  search_knowledge_base q env = (Ok "Error: Knowledge base not initialized", env).
Proof.
  intros Hqe.
  unfold search_knowledge_base, bind, get_query_engine_global, ret.
  by rewrite Hqe.
Qed.

End ToolFacts.

Section CrewFacts.
Context `{P : Platform}.

(** The run of [create_analysis_crew]: it cannot raise; it creates three
    agents, three tasks and the crew, in this order. *)
Lemma create_analysis_crew_run (self : AnalysisCrewBuilder)
    (research_topic : string) (env : Env) :
  exists researcher analyst writer research_task analysis_task report_task,
    create_analysis_crew self research_topic env
    = (Ok (mkCrew [researcher; analyst; writer]
                  [research_task; analysis_task; report_task]
                  sequential true),
       mkEnv (query_engine env) (world env)
         (trace env ++
          [ New_Agent researcher; New_Agent analyst; New_Agent writer;
            New_Task research_task; New_Task analysis_task; New_Task report_task;
            New_Crew (mkCrew [researcher; analyst; writer]
                             [research_task; analysis_task; report_task]
                             sequential true) ]))
    /\ create_research_agent self env
       = (Ok researcher,
          mkEnv (query_engine env) (world env) (trace env ++ [New_Agent researcher]))
    /\ create_data_analyst_agent self env
       = (Ok analyst,
          mkEnv (query_engine env) (world env) (trace env ++ [New_Agent analyst]))
    /\ create_report_writer_agent self env
       = (Ok writer,
          mkEnv (query_engine env) (world env) (trace env ++ [New_Agent writer]))
    /\ map role [researcher; analyst; writer]
       = ["Research Analyst"; "Data Analyst"; "Report Writer"]
    /\ map tools [researcher; analyst; writer]
       = [[search_knowledge_base_tool]; [search_knowledge_base_tool];
          [search_knowledge_base_tool]]
    /\ map agent [research_task; analysis_task; report_task]
       = [researcher; analyst; writer]
    /\ map context [research_task; analysis_task; report_task]
       = [None; Some [research_task]; Some [research_task; analysis_task]].
Proof.
  do 6 eexists. split.
  - unfold create_analysis_crew, create_research_agent, create_data_analyst_agent,
      create_report_writer_agent, construct, log, bind, ret.
    cbn [world trace query_engine]. rewrite <- !app_assoc. reflexivity.
  - repeat split.
Qed.

(** C4. For every topic, [create_analysis_crew] returns a crew of exactly
    three agents, with roles Research Analyst, Data Analyst and Report
    Writer, and exactly three tasks, in the order research, analysis,
    report, one per agent, run as a sequential process; the research task
    has no context, the analysis task has the research task as context,
    and the report task has the research and the analysis tasks. *)
Theorem create_analysis_crew_structure (self : AnalysisCrewBuilder)
    (research_topic : string) (env : Env) :
  exists researcher analyst writer research_task analysis_task report_task env',
    create_analysis_crew self research_topic env
    = (Ok (mkCrew [researcher; analyst; writer]
                  [research_task; analysis_task; report_task]
                  sequential true), env')
    /\ role researcher = "Research Analyst"
    /\ role analyst = "Data Analyst"
    /\ role writer = "Report Writer"
    /\ agent research_task = researcher
    /\ agent analysis_task = analyst
    /\ agent report_task = writer
    /\ context research_task = None
    /\ context analysis_task = Some [research_task]
    /\ context report_task = Some [research_task; analysis_task].
Proof.
  destruct (create_analysis_crew_run self research_topic env)
    as (researcher & analyst & writer & research_task & analysis_task & report_task
        & Hrun & _ & _ & _ & Hrole & _ & Hagent & Hctx).
  exists researcher, analyst, writer, research_task, analysis_task, report_task.
  eexists. split; [exact Hrun|].
  injection Hrole as -> -> ->. injection Hagent as -> -> ->.
  injection Hctx as -> -> ->. repeat split.
Qed.

(** C5. Each of the three agents the builder creates has exactly the
    knowledge-base search tool in its tools, and so has every agent of the
    crew built for any topic. *)
Theorem agents_have_search_tool (self : AnalysisCrewBuilder) (env : Env) :
  (exists a env', create_research_agent self env = (Ok a, env')
                  /\ tools a = [search_knowledge_base_tool])
  /\ (exists a env', create_data_analyst_agent self env = (Ok a, env')
                     /\ tools a = [search_knowledge_base_tool])
  /\ (exists a env', create_report_writer_agent self env = (Ok a, env')
                     /\ tools a = [search_knowledge_base_tool])
  /\ (forall research_topic, exists crew env',
        create_analysis_crew self research_topic env = (Ok crew, env')
        /\ length (agents crew) = 3
        /\ Forall (fun a => tools a = [search_knowledge_base_tool]) (agents crew))
  /\ tool_func search_knowledge_base_tool = fn_search_knowledge_base.
Proof.
  destruct (create_analysis_crew_run self "" env)
    as (researcher & analyst & writer & _ & _ & _
        & _ & Hr & Ha & Hw & _ & Htools & _).
  injection Htools as Htr Hta Htw.
  split; [by eexists _, _|]. split; [by eexists _, _|]. split; [by eexists _, _|].
  split; [|reflexivity]. intros research_topic.
  destruct (create_analysis_crew_run self research_topic env)
    as (r & a & w & rt & at' & pt & Hrun & _ & _ & _ & _ & Htools' & _).
  injection Htools' as H1 H2 H3.
  eexists _, _. split; [exact Hrun|]. split; [reflexivity|].
  repeat constructor; assumption.
Qed.

End CrewFacts.

Section MainFacts.
Context `{P : Platform}.

Lemma bind_ok_inv {S A B : Type} (m : ST S A) (k : A -> ST S B) (s s' : S) (b : B) :
  bind m k s = (Ok b, s') ->
  exists a s1, m s = (Ok a, s1) /\ k a s1 = (Ok b, s').
Proof.
  unfold bind. destruct (m s) as [[a|e] s1]; [|discriminate].
  intros H. by exists a, s1.
Qed.

Ltac run_in H :=
  cbv beta iota zeta delta
    [bind ret raise invoke invoke_ module call effect construct log print getenv
     set_query_engine_global get_self documents_extend documents_append set_index
     with_documents for_each
     KnowledgeBaseBuilder_init load_pdfs load_docx load_text_files add_web_content
     build_index get_query_engine AnalysisCrewBuilder_init
     SimpleNodeParser_from_defaults as_query_engine default from_option id
     fst snd world trace query_engine documents pdf_reader docx_reader index self_llm]
    in H.

Ltac step_in H :=
  match type of H with
  | context [PDFReader_load_data ?r ?f ?w] =>
      destruct (PDFReader_load_data r f w) as [[?|?] ?]
  | context [DocxReader_load_data ?r ?f ?w] =>
      destruct (DocxReader_load_data r f w) as [[?|?] ?]
  | context [open_read ?f ?w] => destruct (open_read f w) as [[?|?] ?]
  | context [SimpleWebPageReader_load_data ?r ?u ?w] =>
      destruct (SimpleWebPageReader_load_data r u w) as [[?|?] ?]
  | context [get_nodes_from_documents ?p ?d ?w] =>
      destruct (get_nodes_from_documents p d w) as [[?|?] ?]
  | context [VectorStoreIndex_init ?n ?w] =>
      destruct (VectorStoreIndex_init n w) as [[?|?] ?]
  | context [storage_context_persist ?i ?d ?w] =>
      destruct (storage_context_persist i d w) as [[[]|?] ?]
  end;
  run_in H; try discriminate H.

(** Runs the statement [H] on an abstract state, by cases on the outcome
    of each library call. *)
Ltac run_ok H :=
  run_in H; repeat step_in H; injection H as <- <-;
  unfold emits; cbn [trace query_engine]; rewrite <- ?app_assoc.

Lemma getenv_ok_inv name env v env' :
  getenv name env = (Ok v, env') ->
  v = os_getenv name (world env) /\ emits env env' [Getenv name].
Proof. intros H. run_ok H. done. Qed.

Lemma print_ok_inv s env u env' :
  print s env = (Ok u, env') -> emits env env' [Call_print s].
Proof. intros H. run_ok H. done. Qed.

Lemma call_ok_inv {A : Type} e (op : ST World A) env v env' :
  call e op env = (Ok v, env') -> emits env env' [e].
Proof.
  unfold call. destruct (op (world env)) as [[a|x] w]; [|discriminate].
  intros [= <- <-]. done.
Qed.

Lemma set_query_engine_global_ok_inv qe env u env' :
  set_query_engine_global qe env = (Ok u, env') ->
  trace env' = trace env ++ [Set_global_query_engine qe]
  /\ query_engine env' = Some qe.
Proof. intros [= <- <-]. done. Qed.

Lemma KnowledgeBaseBuilder_init_ok_inv key env kb env' :
  KnowledgeBaseBuilder_init key env = (Ok kb, env') ->
  kb = mkKnowledgeBaseBuilder mkPDFReader mkDocxReader [] None
  /\ emits env env'
       [ New_HuggingFaceEmbedding (mkHuggingFaceEmbedding "BAAI/bge-small-en-v1.5");
         Set_Settings_embed_model (mkHuggingFaceEmbedding "BAAI/bge-small-en-v1.5");
         New_LlamaGroq (mkLlamaGroq "llama-3.3-70b-versatile" key);
         Set_Settings_llm (mkLlamaGroq "llama-3.3-70b-versatile" key);
         New_PDFReader; New_DocxReader ].
Proof. intros H. run_ok H. done. Qed.

Lemma main_load_pdfs_ok_inv self env kb env' :
  invoke_ self (load_pdfs ["./data/report1.pdf"; "./data/analysis.pdf"]) env
  = (Ok kb, env') ->
  exists docs,
    kb = with_documents self (documents self ++ docs)
    /\ emits env env'
         [ Call_PDFReader_load_data "./data/report1.pdf";
           Call_PDFReader_load_data "./data/analysis.pdf";
           Call_print "Loaded 2 PDF files" ].
Proof.
  intros H. run_ok H. repeat eexists.
Qed.

Lemma main_load_docx_ok_inv self env kb env' :
  invoke_ self (load_docx ["./data/document1.docx"]) env = (Ok kb, env') ->
  exists docs,
    kb = with_documents self (documents self ++ docs)
    /\ emits env env'
         [ Call_DocxReader_load_data "./data/document1.docx";
           Call_print "Loaded 1 DOCX files" ].
Proof. intros H. run_ok H. repeat eexists. Qed.

Lemma main_load_text_files_ok_inv self env kb env' :
  invoke_ self (load_text_files ["./data/notes.txt"; "./data/summary.txt"]) env
  = (Ok kb, env') ->
  exists notes summary,
    kb = with_documents self
           (documents self ++ [text_document "./data/notes.txt" notes;
                               text_document "./data/summary.txt" summary])
    /\ emits env env'
         [ Call_open_read "./data/notes.txt";
           New_Document (text_document "./data/notes.txt" notes);
           Call_open_read "./data/summary.txt";
           New_Document (text_document "./data/summary.txt" summary);
           Call_print "Loaded 2 text files" ].
Proof.
  intros H. run_ok H. repeat eexists.
Qed.

Lemma main_add_web_content_ok_inv self env kb env' :
  invoke_ self (add_web_content
                  ["https://example.com/article1"; "https://example.com/article2"]) env
  = (Ok kb, env') ->
  exists docs,
    kb = with_documents self (documents self ++ docs)
    /\ emits env env'
         [ New_SimpleWebPageReader;
           Call_SimpleWebPageReader_load_data
             ["https://example.com/article1"; "https://example.com/article2"];
           Call_print "Loaded 2 web pages" ].
Proof. intros H. run_ok H. repeat eexists. Qed.

Lemma main_build_index_ok_inv self env kb env' :
  invoke_ self (build_index (Some "./storage")) env = (Ok kb, env') ->
  exists nodes idx,
    kb = mkKnowledgeBaseBuilder (pdf_reader self) (docx_reader self)
           (documents self) (Some idx)
    /\ emits env env' (index_events (documents self) nodes idx).
Proof. intros H. run_ok H. repeat eexists. Qed.

Lemma main_get_query_engine_ok_inv self env r env' :
  invoke self (get_query_engine (Some 5%Z)) env = (Ok r, env') ->
  exists idx,
    index self = Some idx
    /\ fst r = mkQueryEngine idx 5 "compact"
    /\ emits env env' [Call_as_query_engine (mkQueryEngine idx 5 "compact")].
Proof.
  intros H. destruct self as [pr dr docs [idx|]]; run_in H; [|discriminate].
  run_ok H. repeat eexists.
Qed.

Lemma AnalysisCrewBuilder_init_ok_inv key env cb env' :
  AnalysisCrewBuilder_init key env = (Ok cb, env') ->
  cb = mkAnalysisCrewBuilder (mkChatGroq "llama-3.3-70b-versatile" key lit_0_7)
  /\ emits env env'
       [New_ChatGroq (mkChatGroq "llama-3.3-70b-versatile" key lit_0_7)].
Proof. intros H. run_ok H. repeat eexists. Qed.

(** The loop of [load_pdfs] and [load_docx], read backwards: a loop that
    completed has parsed every item. *)
Lemma reader_loop_ok_inv {R : Type} (rdr : KnowledgeBaseBuilder -> R) (ev : string -> Event)
    (op : R -> string -> ST World (list Document)) :
  (forall self d, rdr (with_documents self d) = rdr self) ->
  forall paths self env self' env',
    for_each paths (fun path =>
      self <- get_self ;;
      docs <- module (call (ev path) (op (rdr self) path)) ;;
      documents_extend docs) (self, env)
    = (Ok tt, (self', env')) ->
    exists dss,
      map_each (op (rdr self)) paths (world env) = (Ok dss, world env')
      /\ self' = with_documents self (documents self ++ concat dss)
      /\ trace env' = trace env ++ map ev paths
      /\ query_engine env' = query_engine env.
Proof.
  intros Hrdr. induction paths as [|path paths IH]; intros self env self' env' H.
  - injection H as <- <-. exists []. simpl.
    by rewrite !app_nil_r, with_documents_same.
  - cbn [for_each] in H. unfold bind at 1 in H. unfold bind at 1 in H.
    cbn [get_self] in H. unfold bind at 1 in H. unfold module at 1, call at 1 in H.
    destruct (op (rdr self) path (world env)) as [[ds|e] w1] eqn:Hop; [|discriminate].
    cbn [documents_extend] in H.
    apply IH in H as (dss & Hm & -> & Ht & Hq).
    rewrite Hrdr in Hm. cbn [world trace query_engine] in Hm, Ht, Hq.
    exists (ds :: dss). split.
    { simpl. unfold bind at 1. rewrite Hop. unfold bind at 1. by rewrite Hm. }
    split.
    { cbn [with_documents pdf_reader docx_reader documents index concat].
      by rewrite <- app_assoc. }
    split; [|done]. rewrite Ht. simpl. by rewrite <- app_assoc.
Qed.

Lemma text_loop_ok_run paths :
  forall self env self' env',
    for_each paths (fun path =>
      content <- module (call (Call_open_read path) (open_read path)) ;;
      doc <- module (construct New_Document
                       (mkDocument content {[ "source" := path ]})) ;;
      documents_append doc) (self, env)
    = (Ok tt, (self', env')) ->
    exists docs,
      map_each read_text paths (world env) = (Ok docs, world env')
      /\ self' = with_documents self (documents self ++ docs)
      /\ trace env' = trace env ++ items_trace TXT paths docs
      /\ query_engine env' = query_engine env.
Proof.
  induction paths as [|path paths IH]; intros self env self' env' H.
  - injection H as <- <-. exists []. simpl.
    by rewrite !app_nil_r, with_documents_same.
  - cbn [for_each] in H. unfold bind at 1 in H. unfold bind at 1 in H.
    unfold module at 1, call at 1 in H.
    destruct (open_read path (world env)) as [[content|e] w1] eqn:Hop; [|discriminate].
    unfold bind at 1 in H. cbn in H. fold (text_document path content) in H.
    apply IH in H as (docs & Hm & -> & Ht & Hq).
    cbn [world trace query_engine] in Hm, Ht, Hq.
    exists (text_document path content :: docs). split.
    { simpl. unfold bind at 1. unfold read_text at 1. unfold bind at 1. rewrite Hop.
      unfold ret at 1. unfold bind at 1. by rewrite Hm. }
    split.
    { cbn [with_documents pdf_reader docx_reader documents index].
      by rewrite <- app_assoc. }
    split; [|done]. rewrite Ht. simpl. by rewrite <- !app_assoc.
Qed.

(** A loading call that returned has obtained every item from the library
    and holds the documents obtained. *)
Lemma load_ok_inv src paths self env self' env' :
  load src paths (self, env) = (Ok tt, (self', env')) ->
  exists docs,
    fetched src self paths (world env) = (Ok docs, world env')
    /\ self' = with_documents self (documents self ++ docs)
    /\ trace env' = trace env ++ load_trace src paths docs
    /\ query_engine env' = query_engine env.
Proof.
  unfold load_trace, loaded_message. destruct src; simpl; intros H.
  - unfold load_pdfs in H. unfold bind at 1 in H.
    destruct (for_each _ _ _) as [[[]|e] [self1 env1]] eqn:Hloop; [|discriminate].
    apply (reader_loop_ok_inv pdf_reader Call_PDFReader_load_data PDFReader_load_data
             (fun _ _ => eq_refl)) in Hloop as (dss & Hm & -> & Ht & Hq).
    cbn in H. injection H as <- <-. exists (concat dss).
    cbn [world trace query_engine]. unfold bind. rewrite Hm.
    rewrite Ht, <- app_assoc. done.
  - unfold load_docx in H. unfold bind at 1 in H.
    destruct (for_each _ _ _) as [[[]|e] [self1 env1]] eqn:Hloop; [|discriminate].
    apply (reader_loop_ok_inv docx_reader Call_DocxReader_load_data DocxReader_load_data
             (fun _ _ => eq_refl)) in Hloop as (dss & Hm & -> & Ht & Hq).
    cbn in H. injection H as <- <-. exists (concat dss).
    cbn [world trace query_engine]. unfold bind. rewrite Hm.
    rewrite Ht, <- app_assoc. done.
  - unfold load_text_files in H. unfold bind at 1 in H.
    destruct (for_each _ _ _) as [[[]|e] [self1 env1]] eqn:Hloop; [|discriminate].
    apply text_loop_ok_run in Hloop as (docs & Hm & -> & Ht & Hq).
    cbn in H. injection H as <- <-. exists docs.
    cbn [world trace query_engine]. split; [exact Hm|].
    rewrite Ht, <- app_assoc. done.
  - unfold add_web_content, bind, module, construct, call, log, bind, ret in H.
    cbn in H.
    destruct (SimpleWebPageReader_load_data _ paths (world env)) as [[docs|e] w1] eqn:Hw;
      [|discriminate].
    cbn in H. injection H as <- <-. exists docs. cbn.
    rewrite <- !app_assoc. done.
Qed.


Lemma invoke__ok_inv {A : Type} self (m : Method A) env kb env' :
  invoke_ self m env = (Ok kb, env') ->
  exists v, m (self, env) = (Ok v, (kb, env')).
Proof.
  unfold invoke_, invoke, bind, ret.
  destruct (m (self, env)) as [[v|e] [self1 env1]]; [|discriminate].
  intros [= <- <-]. by exists v.
Qed.

Lemma invoke_ok_inv {A : Type} self (m : Method A) env r env' :
  invoke self m env = (Ok r, env') -> m (self, env) = (Ok (fst r), (snd r, env')).
Proof.
  unfold invoke. destruct (m (self, env)) as [[v|e] [self1 env1]]; [|discriminate].
  by intros [= <- <-].
Qed.

Lemma getenv_ok_step name env v env' :
  getenv name env = (Ok v, env') ->
  v = os_getenv name (world env) /\ emits env env' [Getenv name]
  /\ world env' = world env.
Proof. by intros [= <- <-]. Qed.

Lemma print_ok_step s env u env' :
  print s env = (Ok u, env') -> emits env env' [Call_print s] /\ world env' = world env.
Proof. by intros [= <- <-]. Qed.

Lemma call_ok_step {A : Type} e (op : ST World A) env v env' :
  call e op env = (Ok v, env') ->
  op (world env) = (Ok v, world env') /\ emits env env' [e].
Proof.
  unfold call. destruct (op (world env)) as [[a|x] w]; [|discriminate].
  by intros [= <- <-].
Qed.

Lemma set_query_engine_global_ok_step qe env u env' :
  set_query_engine_global qe env = (Ok u, env') ->
  trace env' = trace env ++ [Set_global_query_engine qe]
  /\ query_engine env' = Some qe /\ world env' = world env.
Proof. by intros [= <- <-]. Qed.

Lemma KnowledgeBaseBuilder_init_ok_step key env kb env' :
  KnowledgeBaseBuilder_init key env = (Ok kb, env') ->
  kb = mkKnowledgeBaseBuilder mkPDFReader mkDocxReader [] None
  /\ emits env env'
       [ New_HuggingFaceEmbedding (mkHuggingFaceEmbedding "BAAI/bge-small-en-v1.5");
         Set_Settings_embed_model (mkHuggingFaceEmbedding "BAAI/bge-small-en-v1.5");
         New_LlamaGroq (mkLlamaGroq "llama-3.3-70b-versatile" key);
         Set_Settings_llm (mkLlamaGroq "llama-3.3-70b-versatile" key);
         New_PDFReader; New_DocxReader ]
  /\ world env'
     = Settings_set_llm (mkLlamaGroq "llama-3.3-70b-versatile" key)
         (Settings_set_embed_model (mkHuggingFaceEmbedding "BAAI/bge-small-en-v1.5")
            (world env)).
Proof.
  unfold KnowledgeBaseBuilder_init, construct, effect, call, log, bind, ret. cbn.
  intros [= <- <-]. unfold emits. cbn. by rewrite <- !app_assoc.
Qed.

Lemma load_ok_step src paths self env kb env' :
  invoke_ self (load src paths) env = (Ok kb, env') ->
  exists docs,
    fetched src self paths (world env) = (Ok docs, world env')
    /\ kb = with_documents self (documents self ++ docs)
    /\ emits env env' (load_trace src paths docs).
Proof.
  intros H. apply invoke__ok_inv in H as [[] H].
  apply load_ok_inv in H as (docs & Hf & -> & Ht & Hq). by exists docs.
Qed.

Lemma build_index_ok_step persist_dir self env kb env' :
  invoke_ self (build_index (Some persist_dir)) env = (Ok kb, env') ->
  exists nodes idx w1 w2,
    get_nodes_from_documents (mkSimpleNodeParser 512 50) (documents self) (world env)
      = (Ok nodes, w1)
    /\ VectorStoreIndex_init nodes w1 = (Ok idx, w2)
    /\ storage_context_persist idx persist_dir w2 = (Ok tt, world env')
    /\ kb = mkKnowledgeBaseBuilder (pdf_reader self) (docx_reader self)
              (documents self) (Some idx)
    /\ emits env env'
         [ Call_print ("Building index from " +:+ str_of_nat (length (documents self))
                       +:+ " documents...");
           Call_from_defaults (Some 512%Z) (Some 50%Z);
           Call_get_nodes_from_documents (mkSimpleNodeParser 512 50) (documents self);
           New_VectorStoreIndex nodes;
           Call_persist idx persist_dir;
           Call_print ("Index built and saved to " +:+ persist_dir) ].
Proof.
  intros H. apply invoke__ok_inv in H as [v H]. revert H.
  unfold build_index, bind, get_self, module, construct, print, log, call, set_index,
    bind, ret, SimpleNodeParser_from_defaults.
  cbn [default from_option id world trace query_engine documents pdf_reader
       docx_reader index].
  destruct (get_nodes_from_documents _ _ _) as [[nodes|e] w1] eqn:Hn;
    cbn [world trace query_engine]; [|discriminate].
  destruct (VectorStoreIndex_init nodes w1) as [[idx|e] w2] eqn:Hi;
    cbn [world trace query_engine documents pdf_reader docx_reader index]; [|discriminate].
  destruct (storage_context_persist idx persist_dir w2) as [[[]|e] w3] eqn:Hp;
    cbn [world trace query_engine]; [|discriminate].
  intros [= <- <- <-]. exists nodes, idx, w1, w2. unfold emits. cbn [world trace query_engine].
  by rewrite <- !app_assoc.
Qed.

Lemma get_query_engine_ok_step k self env r env' :
  invoke self (get_query_engine (Some k)) env = (Ok r, env') ->
  exists idx,
    index self = Some idx
    /\ fst r = mkQueryEngine idx k "compact"
    /\ emits env env' [Call_as_query_engine (mkQueryEngine idx k "compact")]
    /\ world env' = world env.
Proof.
  intros H. apply invoke_ok_inv in H. revert H.
  unfold get_query_engine, bind, get_self, module, construct, log, raise, bind, ret,
    as_query_engine.
  destruct self as [pr dr docs [idx|]]; cbn; [|discriminate].
  intros [= <- _ <-]. by exists idx.
Qed.

Lemma AnalysisCrewBuilder_init_ok_step key env cb env' :
  AnalysisCrewBuilder_init key env = (Ok cb, env') ->
  cb = mkAnalysisCrewBuilder (mkChatGroq "llama-3.3-70b-versatile" key lit_0_7)
  /\ emits env env'
       [New_ChatGroq (mkChatGroq "llama-3.3-70b-versatile" key lit_0_7)]
  /\ world env' = world env.
Proof. by intros [= <- <-]. Qed.

(** The crew that [create_analysis_crew] returns does not depend on the
    state it is created in. *)
Lemma create_analysis_crew_any_state self topic env1 env2 :
  fst (create_analysis_crew self topic env1) = fst (create_analysis_crew self topic env2).
Proof.
  unfold create_analysis_crew, create_research_agent, create_data_analyst_agent,
    create_report_writer_agent, construct, log, bind, ret.
  reflexivity.
Qed.

Lemma text_pair_inv self path1 path2 w docs w' :
  fetched TXT self [path1; path2] w = (Ok docs, w') ->
  exists content1 content2,
    docs = [text_document path1 content1; text_document path2 content2].
Proof.
  simpl. unfold bind, ret.
  destruct (open_read path1 w) as [[c1|e] w1]; [|discriminate].
  destruct (open_read path2 w1) as [[c2|e] w2]; [|discriminate].
  intros [= <- _]. by exists c1, c2.
Qed.


Tactic Notation "step" hyp(H) "into" ident(v) ident(s)
    "by" uconstr(L) "as" simple_intropattern(pat) :=
  let Hs := fresh "Hs" in
  apply bind_ok_inv in H as (v & s & Hs & H);
  apply L in Hs as pat;
  cbv beta zeta in H.

(** C6. Every run of [main] that completes has loaded the files of all
    four sources, chunked, embedded and indexed exactly the documents so
    obtained, in the order PDF, Word, text, web, persisted that index to
    [./storage], kicked off the crew that [create_analysis_crew] builds for
    the topic, and written the string form of the result to
    [analysis_report.md].  Its effects come in this order: loading;
    chunking and indexing; persisting; setting the global query engine;
    creating the three agents, the three tasks and the crew; the kickoff;
    printing the result and writing it.  No event that creates or runs the
    crew comes before the global query engine is set, and the text written
    to the file is the text printed. *)
Theorem main_runs_in_order (env env' : Env) :
  main env = (Ok tt, env') ->
  exists pdf_docs docx_docs web_docs notes summary docs nodes idx
         researcher analyst writer research_task analysis_task report_task result
         w1 w2 w3 w4 w5 w6 w7 w8,
    let key := os_getenv "GROQ_API_KEY" (world env) in
    let kb := mkKnowledgeBaseBuilder mkPDFReader mkDocxReader [] None in
    let w0 := Settings_set_llm (mkLlamaGroq "llama-3.3-70b-versatile" key)
                (Settings_set_embed_model
                   (mkHuggingFaceEmbedding "BAAI/bge-small-en-v1.5") (world env)) in
    let txt_docs := [ text_document "./data/notes.txt" notes;
                      text_document "./data/summary.txt" summary ] in
    let crew := mkCrew [researcher; analyst; writer]
                       [research_task; analysis_task; report_task]
                       sequential true in
    (* load files from all sources: what the index is built over *)
    fetched PDF kb ["./data/report1.pdf"; "./data/analysis.pdf"] w0 = (Ok pdf_docs, w1)
    /\ fetched DOCX kb ["./data/document1.docx"] w1 = (Ok docx_docs, w2)
    /\ fetched TXT kb ["./data/notes.txt"; "./data/summary.txt"] w2 = (Ok txt_docs, w3)
    /\ fetched WEB kb ["https://example.com/article1"; "https://example.com/article2"] w3
       = (Ok web_docs, w4)
    /\ docs = pdf_docs ++ docx_docs ++ txt_docs ++ web_docs
    (* chunk, embed and index them; persist the index *)
    /\ get_nodes_from_documents (mkSimpleNodeParser 512 50) docs w4 = (Ok nodes, w5)
    /\ VectorStoreIndex_init nodes w5 = (Ok idx, w6)
    /\ storage_context_persist idx "./storage" w6 = (Ok tt, w7)
    (* the crew, its run, the report *)
    /\ fst (create_analysis_crew
              (mkAnalysisCrewBuilder (mkChatGroq "llama-3.3-70b-versatile" key lit_0_7))
              research_topic_literal env) = Ok crew
    /\ kickoff crew w7 = (Ok result, w8)
    /\ open_write "analysis_report.md" (str_CrewOutput result) w8 = (Ok tt, world env')
    (* the order of all effects *)
    /\ trace env'
       = trace env ++ workflow_trace key notes summary docs nodes idx crew result
    /\ query_engine env' = Some (mkQueryEngine idx 5 "compact")
    /\ map role [researcher; analyst; writer]
       = ["Research Analyst"; "Data Analyst"; "Report Writer"]
    /\ Forall (fun e => crew_event e = false)
         (start_events key ++ load_events notes summary
          ++ index_events docs nodes idx ++ engine_events idx)
    /\ In (Call_print (str_CrewOutput result)) (output_events result)
    /\ In (Call_open_write "analysis_report.md" (str_CrewOutput result))
          (output_events result).
Proof.
  intros H. unfold main in H.
  step H into key s1 by getenv_ok_step as [-> [[T1 Q1] W1]].
  step H into u2 s2 by print_ok_step as [[T2 Q2] W2].
  step H into u3 s3 by print_ok_step as [[T3 Q3] W3].
  step H into u4 s4 by print_ok_step as [[T4 Q4] W4].
  step H into kb0 s5 by KnowledgeBaseBuilder_init_ok_step as [-> [[T5 Q5] W5]].
  step H into kb1 s6 by (load_ok_step PDF) as (pdf_docs & F6 & -> & T6 & Q6).
  step H into kb2 s7 by (load_ok_step DOCX) as (docx_docs & F7 & -> & T7 & Q7).
  step H into kb3 s8 by (load_ok_step TXT) as (txt_docs & F8 & -> & T8 & Q8).
  step H into kb4 s9 by (load_ok_step WEB) as (web_docs & F9 & -> & T9 & Q9).
  step H into kb5 s10 by build_index_ok_step
    as (nodes & idx & w5 & w6 & Hn & Hi & Hp & -> & T10 & Q10).
  step H into r s11 by get_query_engine_ok_step
    as (idx' & [= <-] & Hr & [T11 Q11] & W11).
  step H into u12 s12 by set_query_engine_global_ok_step as (T12 & Q12 & W12).
  step H into u13 s13 by print_ok_step as [[T13 Q13] W13].
  step H into u14 s14 by print_ok_step as [[T14 Q14] W14].
  step H into u15 s15 by print_ok_step as [[T15 Q15] W15].
  step H into cb s16 by AnalysisCrewBuilder_init_ok_step as [-> [[T16 Q16] W16]].
  apply bind_ok_inv in H as (crew & s17 & Hcrew & H). cbv beta in H.
  destruct (create_analysis_crew_run
              (mkAnalysisCrewBuilder
                 (mkChatGroq "llama-3.3-70b-versatile"
                    (os_getenv "GROQ_API_KEY" (world env)) lit_0_7))
              research_topic_literal s16)
    as (researcher & analyst & writer & research_task & analysis_task & report_task
        & Hrun & _ & _ & _ & Hrole & _).
  assert (Hany := create_analysis_crew_any_state
                    (mkAnalysisCrewBuilder
                       (mkChatGroq "llama-3.3-70b-versatile"
                          (os_getenv "GROQ_API_KEY" (world env)) lit_0_7))
                    research_topic_literal env s16).
  rewrite Hrun in Hany. cbn [fst] in Hany.
  rewrite Hrun in Hcrew. injection Hcrew as <- <-.
  step H into result s18 by call_ok_step as [K18 [T18 Q18]].
  step H into u19 s19 by print_ok_step as [[T19 Q19] W19].
  step H into u20 s20 by print_ok_step as [[T20 Q20] W20].
  step H into u21 s21 by print_ok_step as [[T21 Q21] W21].
  step H into u22 s22 by print_ok_step as [[T22 Q22] W22].
  step H into u23 s23 by call_ok_step as [K23 [T23 Q23]].
  apply print_ok_step in H as [[T24 Q24] W24].
  cbn [trace query_engine world] in T18, Q18, K18.
  destruct (text_pair_inv _ _ _ _ _ _ F8) as (notes & summary & ->).
  cbn [documents with_documents app] in *.
  exists pdf_docs, docx_docs, web_docs, notes, summary,
    (pdf_docs ++ docx_docs
     ++ [text_document "./data/notes.txt" notes;
         text_document "./data/summary.txt" summary] ++ web_docs),
    nodes, idx, researcher, analyst, writer,
    research_task, analysis_task, report_task, result,
    (world s6), (world s7), (world s8), (world s9), w5, w6, (world s10), (world s18).
  cbv zeta.
  rewrite W5, W4, W3, W2, W1 in F6.
  split; [exact F6|]. split; [exact F7|]. split; [exact F8|]. split; [exact F9|].
  split; [reflexivity|].
  rewrite <- !app_assoc in Hn.
  split; [exact Hn|]. split; [exact Hi|]. split; [exact Hp|].
  split; [exact Hany|].
  rewrite W16, W15, W14, W13, W12, W11 in K18.
  split; [exact K18|].
  rewrite W22, W21, W20, W19 in K23. rewrite W24. destruct u23.
  split; [exact K23|].
  split.
  { rewrite T24, T23, T22, T21, T20, T19, T18, T16, T15, T14, T13, T12, T11, T10,
      T9, T8, T7, T6, T5, T4, T3, T2, T1, Hr.
    unfold workflow_trace, crew_events, load_trace, loaded_message.
    cbn [app map agents tasks start_events load_events index_events engine_events
         run_events output_events documents with_documents items_trace concat
         zip_with length].
    rewrite <- !app_assoc. reflexivity. }
  split.
  { rewrite Q24, Q23, Q22, Q21, Q20, Q19, Q18, Q16, Q15, Q14, Q13, Q12, Hr.
    reflexivity. }
  split; [exact Hrole|].
  split; [repeat constructor|]. split; simpl; tauto.
Qed.

End MainFacts.

(** * The properties on the concrete platform *)

(** A missing file stops [load_pdfs]; what was loaded before stays. *)
Example load_pdfs_stops_at_missing_file :
  load PDF ["./data/report1.pdf"; "./data/missing.pdf"; "./data/analysis.pdf"]
    (demo_builder, demo_env)
  = (Raise (FileNotFoundError "./data/missing.pdf"),
     (with_documents demo_builder (demo_pdf_docs "./data/report1.pdf"),
      mkEnv None []
        [ Call_PDFReader_load_data "./data/report1.pdf";
          Call_PDFReader_load_data "./data/missing.pdf" ])).
Proof. reflexivity. Qed.

Example get_query_engine_before_build_index :
  get_query_engine None (demo_builder, demo_env)
  = (Raise (ValueError "Index not built. Call build_index() first."),
     (demo_builder, demo_env)).
Proof. reflexivity. Qed.

Example load_index_then_get_query_engine :
  (r <- load_index None ;; get_query_engine (Some 3%Z)) (demo_builder, demo_env)
  = (Ok (mkQueryEngine [] 3 "compact"),
     (mkKnowledgeBaseBuilder mkPDFReader mkDocxReader [] (Some []),
      mkEnv None []
        [ Call_StorageContext_from_defaults "./storage";
          Call_load_index_from_storage;
          Call_print "Index loaded from disk";
          Call_as_query_engine (mkQueryEngine [] 3 "compact") ])).
Proof. reflexivity. Qed.

Example main_on_demo_platform :
  fst (main demo_env) = Ok tt
  /\ world (snd (main demo_env)) = ["./storage"; "analysis_report.md"]
  /\ length (trace (snd (main demo_env))) = 49.
Proof. vm_compute. repeat split. Qed.

Lemma load_appends_fetched_witness :
  fetched PDF demo_loaded_builder ["./data/report1.pdf"; "./data/analysis.pdf"]
    (world demo_env)
  = (Ok (demo_pdf_docs "./data/report1.pdf" ++ demo_pdf_docs "./data/analysis.pdf"), [])
  /\ exists env',
       load PDF ["./data/report1.pdf"; "./data/analysis.pdf"]
         (demo_loaded_builder, demo_env)
       = (Ok tt,
          (with_documents demo_loaded_builder
             (documents demo_loaded_builder
              ++ demo_pdf_docs "./data/report1.pdf"
              ++ demo_pdf_docs "./data/analysis.pdf"), env'))
       /\ world env' = [].
Proof.
  split; [reflexivity|].
  apply (load_appends_fetched PDF ["./data/report1.pdf"; "./data/analysis.pdf"]
           demo_loaded_builder demo_env).
  reflexivity.
Defined.

Lemma build_index_builds_persists_returns_witness :
  get_nodes_from_documents (mkSimpleNodeParser 512 50)
    (documents demo_loaded_builder) (world demo_env) = (Ok ["hello"], [])
  /\ VectorStoreIndex_init ["hello"] [] = (Ok ["hello"], [])
  /\ storage_context_persist ["hello"] "./storage" [] = (Ok tt, ["./storage"])
  /\ build_index None (demo_loaded_builder, demo_env)
     = (Ok ["hello"],
        (mkKnowledgeBaseBuilder mkPDFReader mkDocxReader
           [text_document "./data/notes.txt" "hello"] (Some ["hello"]),
         mkEnv None ["./storage"]
           [ Call_print "Building index from 1 documents...";
             Call_from_defaults (Some 512%Z) (Some 50%Z);
             Call_get_nodes_from_documents (mkSimpleNodeParser 512 50)
               [text_document "./data/notes.txt" "hello"];
             New_VectorStoreIndex ["hello"];
             Call_persist ["hello"] "./storage";
             Call_print "Index built and saved to ./storage" ])).
Proof.
  split; [reflexivity|]. split; [reflexivity|]. split; [reflexivity|].
  apply (build_index_builds_persists_returns None demo_loaded_builder demo_env
           ["hello"] ["hello"] [] [] ["./storage"]); reflexivity.
Defined.

(** C2, as the claim states it, fails.  In the run of [build_index] on the
    platform with the library's defaults (1024 and 200), the call to
    [from_defaults] does pass chunking parameters of its own, and the parser
    the documents are chunked with is not the parser of default parameters. *)
Lemma build_index_parser_not_default :
  ~ (forall a b,
       In (Call_from_defaults a b)
          (trace (env_after (build_index None (demo_loaded_builder, demo_env)))) ->
       a = None /\ b = None)
  /\ ~ (forall parser docs,
          In (Call_get_nodes_from_documents parser docs)
             (trace (env_after (build_index None (demo_loaded_builder, demo_env)))) ->
          parser = SimpleNodeParser_from_defaults None None).
Proof.
  split; intros H.
  - destruct (H (Some 512%Z) (Some 50%Z)) as [Ha _]; [|discriminate Ha].
    right. left. reflexivity.
  - specialize (H (mkSimpleNodeParser 512 50)
                  [text_document "./data/notes.txt" "hello"]).
    assert (Hin : In (Call_get_nodes_from_documents (mkSimpleNodeParser 512 50)
                        [text_document "./data/notes.txt" "hello"])
                     (trace (env_after (build_index None
                                          (demo_loaded_builder, demo_env))))).
    { right. right. left. reflexivity. }
    apply H in Hin. discriminate Hin.
Qed.

Section FailedPersist.
#[local] Existing Instance faulty_platform | 0.

(** C8, as the claim states it, fails.  On a builder without index,
    [build_index] to a directory that cannot be written raises, so that
    neither [build_index] nor [load_index] has succeeded; yet
    [self.index] is set and [get_query_engine] returns an engine instead
    of raising [ValueError]. *)
Lemma get_query_engine_after_failed_build_index :
  index faulty_builder = None
  /\ fst (build_index (Some "/readonly") (faulty_builder, faulty_env))
     = Raise (mkException "PermissionError" "/readonly")
  /\ index (self_after (build_index (Some "/readonly") (faulty_builder, faulty_env)))
     = Some ["hello"]
  /\ fst (get_query_engine None
            (snd (build_index (Some "/readonly") (faulty_builder, faulty_env))))
     = Ok faulty_engine
  /\ ~ (exists msg st,
          get_query_engine None
            (snd (build_index (Some "/readonly") (faulty_builder, faulty_env)))
          = (Raise (ValueError msg), st)).
Proof.
  split; [reflexivity|]. split; [reflexivity|]. split; [reflexivity|].
  split; [reflexivity|]. intros (msg & st & H). vm_compute in H. discriminate H.
Qed.

End FailedPersist.

Lemma search_knowledge_base_answers_witness :
  query_engine demo_ready_env = Some demo_engine
  /\ query demo_engine "key trends" (world demo_ready_env)
     = (Ok "answer to key trends", [])
  /\ search_knowledge_base "key trends" demo_ready_env
     = (Ok "answer to key trends",
        mkEnv (Some demo_engine) [] [Call_query demo_engine "key trends"]).
Proof.
  split; [reflexivity|]. split; [reflexivity|].
  apply (search_knowledge_base_answers "key trends" demo_ready_env demo_engine
           "answer to key trends" []); reflexivity.
Defined.

Lemma search_knowledge_base_uninitialized_witness :
  query_engine demo_env = None
  /\ search_knowledge_base "key trends" demo_env
     = (Ok "Error: Knowledge base not initialized", demo_env).
Proof.
  split; [reflexivity|].
  apply (search_knowledge_base_uninitialized "key trends" demo_env). reflexivity.
Defined.

Lemma main_runs_in_order_witness :
  main demo_env = (Ok tt, snd (main demo_env))
  /\ exists pdf_docs docx_docs web_docs notes summary docs nodes idx
            researcher analyst writer research_task analysis_task report_task result
            w1 w2 w3 w4 w5 w6 w7 w8,
       let key := os_getenv "GROQ_API_KEY" (world demo_env) in
       let kb := mkKnowledgeBaseBuilder mkPDFReader mkDocxReader [] None in
       let w0 := Settings_set_llm (mkLlamaGroq "llama-3.3-70b-versatile" key)
                   (Settings_set_embed_model
                      (mkHuggingFaceEmbedding "BAAI/bge-small-en-v1.5")
                      (world demo_env)) in
       let txt_docs := [ text_document "./data/notes.txt" notes;
                         text_document "./data/summary.txt" summary ] in
       let crew := mkCrew [researcher; analyst; writer]
                          [research_task; analysis_task; report_task]
                          sequential true in
       fetched PDF kb ["./data/report1.pdf"; "./data/analysis.pdf"] w0
       = (Ok pdf_docs, w1)
       /\ fetched DOCX kb ["./data/document1.docx"] w1 = (Ok docx_docs, w2)
       /\ fetched TXT kb ["./data/notes.txt"; "./data/summary.txt"] w2
          = (Ok txt_docs, w3)
       /\ fetched WEB kb
            ["https://example.com/article1"; "https://example.com/article2"] w3
          = (Ok web_docs, w4)
       /\ docs = pdf_docs ++ docx_docs ++ txt_docs ++ web_docs
       /\ get_nodes_from_documents (mkSimpleNodeParser 512 50) docs w4 = (Ok nodes, w5)
       /\ VectorStoreIndex_init nodes w5 = (Ok idx, w6)
       /\ storage_context_persist idx "./storage" w6 = (Ok tt, w7)
       /\ fst (create_analysis_crew
                 (mkAnalysisCrewBuilder
                    (mkChatGroq "llama-3.3-70b-versatile" key lit_0_7))
                 research_topic_literal demo_env) = Ok crew
       /\ kickoff crew w7 = (Ok result, w8)
       /\ open_write "analysis_report.md" (str_CrewOutput result) w8
          = (Ok tt, world (snd (main demo_env)))
       /\ trace (snd (main demo_env))
          = trace demo_env
            ++ workflow_trace key notes summary docs nodes idx crew result
       /\ query_engine (snd (main demo_env)) = Some (mkQueryEngine idx 5 "compact")
       /\ map role [researcher; analyst; writer]
          = ["Research Analyst"; "Data Analyst"; "Report Writer"]
       /\ Forall (fun e => crew_event e = false)
            (start_events key ++ load_events notes summary
             ++ index_events docs nodes idx ++ engine_events idx)
       /\ In (Call_print (str_CrewOutput result)) (output_events result)
       /\ In (Call_open_write "analysis_report.md" (str_CrewOutput result))
             (output_events result).
Proof.
  split; [vm_compute; reflexivity|].
  apply (main_runs_in_order demo_env (snd (main demo_env))).
  vm_compute; reflexivity.
Defined.

(** * Further properties of the code *)

Section EffectFacts.
Context `{P : Platform}.

Lemma emits_only_ret {S A : Type} (tr : S -> list Event) Q (a : A) :
  emits_only tr Q (ret a).
Proof. intros s. exists []. by rewrite app_nil_r. Qed.

Lemma emits_only_raise {S A : Type} (tr : S -> list Event) Q e :
  emits_only tr Q (raise (A:=A) e).
Proof. intros s. exists []. by rewrite app_nil_r. Qed.

Lemma emits_only_bind {S A B : Type} (tr : S -> list Event) Q
    (m : ST S A) (k : A -> ST S B) :
  emits_only tr Q m -> (forall a, emits_only tr Q (k a)) -> emits_only tr Q (bind m k).
Proof.
  intros Hm Hk s. unfold bind. destruct (Hm s) as (n1 & E1 & F1).
  destruct (m s) as [[a|e] s1]; simpl in *.
  - destruct (Hk a s1) as (n2 & E2 & F2). exists (n1 ++ n2).
    rewrite E2, E1, app_assoc. split; [done|by apply Forall_app].
  - by exists n1.
Qed.

Lemma emits_only_for_each {S A : Type} (tr : S -> list Event) Q
    (xs : list A) (body : A -> ST S unit) :
  (forall x, emits_only tr Q (body x)) -> emits_only tr Q (for_each xs body).
Proof.
  intros Hbody. induction xs as [|x xs IH]; simpl.
  - apply emits_only_ret.
  - apply emits_only_bind; auto.
Qed.

Lemma emits_only_weaken {S A : Type} (tr : S -> list Event) (Q Q' : Event -> Prop)
    (m : ST S A) :
  (forall e, Q e -> Q' e) -> emits_only tr Q m -> emits_only tr Q' m.
Proof.
  intros HQ Hm s. destruct (Hm s) as (new & E & F). exists new. split; [done|].
  eapply Forall_impl; eauto.
Qed.

Lemma emits_only_log (Q : Event -> Prop) e : Q e -> emits_only trace Q (log e).
Proof. intros He s. exists [e]. split; [done|]. by constructor. Qed.

Lemma emits_only_call {A : Type} (Q : Event -> Prop) e (op : ST World A) :
  Q e -> emits_only trace Q (call e op).
Proof.
  intros He s. exists [e]. unfold call. destruct (op (world s)) as [r w].
  split; [done|]. by constructor.
Qed.

Lemma emits_only_module {A : Type} Q (m : M A) :
  emits_only trace Q m -> emits_only method_trace Q (module m).
Proof.
  intros Hm [self env]. destruct (Hm env) as (new & E & F). exists new.
  unfold module, method_trace in *. by destruct (m env) as [r env'].
Qed.

Lemma emits_only_silent {A : Type} Q (m : Method A) :
  (forall st, snd (snd (m st)) = snd st) -> emits_only method_trace Q m.
Proof.
  intros Hm st. exists []. unfold method_trace. by rewrite Hm, app_nil_r.
Qed.

Lemma emits_only_invoke {A : Type} Q self (m : Method A) :
  emits_only method_trace Q m -> emits_only trace Q (invoke self m).
Proof.
  intros Hm env. destruct (Hm (self, env)) as (new & E & F). exists new.
  unfold invoke, method_trace in *.
  destruct (m (self, env)) as [[a|e] [self' env']]; done.
Qed.

Lemma keeps_bind {S A B G : Type} (g : S -> G) (m : ST S A) (k : A -> ST S B) :
  keeps g m -> (forall a, keeps g (k a)) -> keeps g (bind m k).
Proof.
  intros Hm Hk s. unfold bind. specialize (Hm s).
  destruct (m s) as [[a|e] s1]; simpl in *; [|done]. by rewrite Hk.
Qed.

Lemma keeps_for_each {S A G : Type} (g : S -> G) (xs : list A) (body : A -> ST S unit) :
  (forall x, keeps g (body x)) -> keeps g (for_each xs body).
Proof.
  intros Hbody. induction xs as [|x xs IH]; simpl; [done|].
  apply keeps_bind; auto.
Qed.

Lemma keeps_module_global {A : Type} (m : M A) :
  keeps query_engine m -> keeps method_global (module m).
Proof.
  intros Hm [self env]. specialize (Hm env). unfold module, method_global in *.
  by destruct (m env) as [r env'].
Qed.

Lemma keeps_log e : keeps query_engine (log e).
Proof. done. Qed.

Lemma keeps_call {A : Type} e (op : ST World A) : keeps query_engine (call e op).
Proof. intros s. unfold call. by destruct (op (world s)). Qed.


Lemma emits_only_print (Q : Event -> Prop) s : Q (Call_print s) -> emits_only trace Q (print s).
Proof. apply emits_only_log. Qed.

Lemma emits_only_construct {A : Type} (Q : Event -> Prop) (e : A -> Event) a :
  Q (e a) -> emits_only trace Q (construct e a).
Proof.
  intros He. apply emits_only_bind; [by apply emits_only_log|].
  intros _. apply emits_only_ret.
Qed.

Lemma emits_only_invoke_ {A : Type} Q self (m : Method A) :
  emits_only method_trace Q m -> emits_only trace Q (invoke_ self m).
Proof.
  intros Hm. apply emits_only_bind; [by apply emits_only_invoke|].
  intros r. apply emits_only_ret.
Qed.

Lemma keeps_construct {A : Type} (e : A -> Event) a : keeps query_engine (construct e a).
Proof. done. Qed.

Lemma keeps_ret {S A G : Type} (g : S -> G) (a : A) : keeps g (ret a).
Proof. done. Qed.

Lemma keeps_raise {S A G : Type} (g : S -> G) e : keeps g (raise (A:=A) e).
Proof. done. Qed.

Lemma keeps_silent_global {A : Type} (m : Method A) :
  (forall st, snd (snd (m st)) = snd st) -> keeps method_global m.
Proof. intros Hm st. unfold method_global. by rewrite Hm. Qed.

(** Settles [emits_only] and [keeps] goals for a body made of the
    primitives above. *)
Ltac confine :=
  repeat first
    [ apply emits_only_bind | apply keeps_bind
    | apply emits_only_for_each | apply keeps_for_each
    | apply emits_only_module | apply keeps_module_global
    | apply emits_only_print; reflexivity
    | apply emits_only_construct; reflexivity
    | apply emits_only_call; reflexivity
    | apply emits_only_log; reflexivity
    | apply keeps_call | apply keeps_construct | apply keeps_log
    | apply emits_only_ret | apply emits_only_raise
    | apply keeps_ret | apply keeps_raise
    | apply emits_only_silent; intros [? ?]; reflexivity
    | apply keeps_silent_global; intros [? ?]; reflexivity
    | intros ? ].

Lemma load_kb_only src paths : kb_only (load src paths).
Proof.
  destruct src; split; simpl;
    unfold load_pdfs, load_docx, load_text_files, add_web_content, print; confine.
Qed.

Lemma build_index_kb_only persist_dir : kb_only (build_index persist_dir).
Proof. split; unfold build_index, print; confine. Qed.

Lemma load_index_kb_only persist_dir : kb_only (load_index persist_dir).
Proof. split; unfold load_index, print; confine. Qed.

Lemma get_query_engine_kb_only k : kb_only (get_query_engine k).
Proof.
  split; unfold get_query_engine; confine; destruct (index _); confine.
Qed.


Lemma load_kb_without_persist src paths : kb_without_persist (load src paths).
Proof.
  destruct src; split; simpl;
    unfold load_pdfs, load_docx, load_text_files, add_web_content, print; confine.
Qed.

Lemma load_index_kb_without_persist persist_dir :
  kb_without_persist (load_index persist_dir).
Proof. split; unfold load_index, print; confine. Qed.

Lemma get_query_engine_kb_without_persist k : kb_without_persist (get_query_engine k).
Proof.
  split; unfold get_query_engine; confine; destruct (index _); confine.
Qed.

(** X15. Whatever its outcome, a method of [KnowledgeBaseBuilder] only
    makes knowledge-base calls (LlamaIndex readers, parser, index and
    storage, [open] for reading, [print]): it creates no agent, task or
    crew, kicks nothing off, makes no query, does not [open] a file for
    writing, and never assigns the module global [query_engine].  Only
    [build_index] calls [persist]; the loaders, [load_index] and
    [get_query_engine] do not. *)
Theorem knowledge_base_methods_confined :
  (forall src paths, kb_without_persist (load src paths))
  /\ (forall persist_dir, kb_only (build_index persist_dir))
  /\ (forall persist_dir, kb_without_persist (load_index persist_dir))
  /\ (forall similarity_top_k, kb_without_persist (get_query_engine similarity_top_k))
  /\ (forall e, kb_read_event e = true -> kb_event e = true /\ is_persist e = false)
  /\ (forall e, kb_event e = true ->
        crew_event e = false /\ is_open_write e = false /\ is_set_global e = false
        /\ match e with Call_query _ _ => False | _ => True end).
Proof.
  split; [exact load_kb_without_persist|]. split; [exact build_index_kb_only|].
  split; [exact load_index_kb_without_persist|].
  split; [exact get_query_engine_kb_without_persist|].
  split; intros e He; by destruct e.
Qed.

Lemma gated_free gate held l :
  Forall (fun e => held e = false) l -> gated gate held l = true.
Proof.
  induction 1 as [|e l He _ IH]; simpl; [done|].
  destruct (gate e); [done|]. by rewrite He, IH.
Qed.

Lemma gated_app_before gate held l1 l2 :
  Forall (fun e => held e = false) l1 -> gated gate held l2 = true ->
  gated gate held (l1 ++ l2) = true.
Proof.
  intros H1 H2. induction H1 as [|e l He _ IH]; simpl; [done|].
  destruct (gate e); [done|]. by rewrite He, IH.
Qed.

Lemma ordered_free {A : Type} gate held (m : M A) :
  emits_only trace (fun e => held e = false) m -> ordered gate held m.
Proof.
  intros Hm s. destruct (Hm s) as (new & E & F). exists new.
  split; [done|by apply gated_free].
Qed.

Lemma ordered_bind_before {A B : Type} gate held (m : M A) (k : A -> M B) :
  emits_only trace (fun e => held e = false) m ->
  (forall a, ordered gate held (k a)) ->
  ordered gate held (bind m k).
Proof.
  intros Hm Hk s. unfold bind. destruct (Hm s) as (n1 & E1 & F1).
  destruct (m s) as [[a|e] s1]; simpl in *.
  - destruct (Hk a s1) as (n2 & E2 & G2). exists (n1 ++ n2).
    rewrite E2, E1, app_assoc. split; [done|by apply gated_app_before].
  - exists n1. split; [done|by apply gated_free].
Qed.

Lemma ordered_bind_gate {A B : Type} gate held (m : M A) (k : A -> M B) :
  (forall s, exists e, gate e = true /\ trace (snd (m s)) = trace s ++ [e]) ->
  (forall a, emits_only trace (fun _ => True) (k a)) ->
  ordered gate held (bind m k).
Proof.
  intros Hm Hk s. unfold bind. destruct (Hm s) as (e & Hg & E1).
  destruct (m s) as [[a|x] s1]; simpl in *.
  - destruct (Hk a s1) as (n2 & E2 & _). exists (e :: n2).
    rewrite E2, E1, <- app_assoc. split; [done|]. simpl. by rewrite Hg.
  - exists [e]. split; [done|]. simpl. by rewrite Hg.
Qed.

Lemma kb_event_not_crew e : kb_event e = true -> crew_event e = false.
Proof. by destruct e. Qed.

Lemma kb_event_not_open_write e : kb_event e = true -> is_open_write e = false.
Proof. by destruct e. Qed.

Lemma emits_only_getenv (Q : Event -> Prop) name :
  Q (Getenv name) -> emits_only trace Q (getenv name).
Proof. intros He s. exists [Getenv name]. split; [done|]. by constructor. Qed.

Lemma emits_only_set_global (Q : Event -> Prop) qe :
  Q (Set_global_query_engine qe) -> emits_only trace Q (set_query_engine_global qe).
Proof.
  intros He s. exists [Set_global_query_engine qe]. split; [done|]. by constructor.
Qed.

Lemma emits_only_method {A : Type} (Q : Event -> Prop) (m : Method A) :
  (forall e, kb_event e = true -> Q e) -> kb_only m -> emits_only method_trace Q m.
Proof. intros HQ [Hm _]. by apply (emits_only_weaken _ _ _ _ HQ). Qed.

(** Settles [emits_only trace Q] for a statement of [main], given that the
    knowledge-base events satisfy [Q]. *)
Ltac statement_emits HQ :=
  first
    [ apply emits_only_invoke_; apply (emits_only_method _ _ HQ);
      first [ apply (load_kb_only PDF) | apply (load_kb_only DOCX)
            | apply (load_kb_only TXT) | apply (load_kb_only WEB)
            | apply build_index_kb_only ]
    | apply emits_only_invoke; apply (emits_only_method _ _ HQ);
      apply get_query_engine_kb_only
    | apply emits_only_getenv; reflexivity
    | apply emits_only_set_global; reflexivity
    | unfold KnowledgeBaseBuilder_init, AnalysisCrewBuilder_init, create_analysis_crew,
        create_research_agent, create_data_analyst_agent, create_report_writer_agent,
        effect, print;
      repeat first
        [ apply emits_only_bind
        | apply emits_only_construct; reflexivity
        | apply emits_only_call; reflexivity
        | apply emits_only_log; reflexivity
        | apply emits_only_ret
        | intros ? ] ].

Lemma main_crew_after_engine : ordered is_set_global crew_event main.
Proof.
  unfold main.
  do 11 (apply ordered_bind_before; [statement_emits kb_event_not_crew|intros ?]).
  apply ordered_bind_gate.
  - intros s. eexists. split; [|reflexivity]. reflexivity.
  - intros _.
    assert (HQ : forall e : Event, kb_event e = true -> True) by done.
    cbv zeta.
    repeat (apply emits_only_bind; [statement_emits HQ|intros ?]).
    statement_emits HQ.
Qed.

Lemma main_write_after_kickoff : ordered is_kickoff is_open_write main.
Proof.
  unfold main. cbv zeta.
  do 17 (apply ordered_bind_before; [statement_emits kb_event_not_open_write|intros ?]).
  apply ordered_bind_gate.
  - intros s. eexists. split; [|unfold call; by destruct (kickoff _ _)]. reflexivity.
  - intros result.
    assert (HQ : forall e : Event, kb_event e = true -> True) by done.
    repeat (apply emits_only_bind; [statement_emits HQ|intros ?]).
    statement_emits HQ.
Qed.

(** X16. In every run of [main], completed or stopped by an exception, no
    agent, task or crew is created and nothing is kicked off before the
    global query engine has been assigned, and [analysis_report.md] is not
    written before the crew has been kicked off. *)
Theorem main_effects_are_ordered (env : Env) :
  exists new,
    trace (snd (main env)) = trace env ++ new
    /\ gated is_set_global crew_event new = true
    /\ gated is_kickoff is_open_write new = true.
Proof.
  destruct (main_crew_after_engine env) as (new & E & G1).
  destruct (main_write_after_kickoff env) as (new' & E' & G2).
  exists new. split; [done|]. split; [done|].
  rewrite E in E'. by apply app_inv_head in E' as ->.
Qed.

End EffectFacts.

Section LoadingFacts.
Context `{P : Platform}.

Lemma map_each_app_ok {W A B : Type} (f : A -> ST W B) xs1 xs2 w ys1 w1 ys2 w2 :
  map_each f xs1 w = (Ok ys1, w1) ->
  map_each f xs2 w1 = (Ok ys2, w2) ->
  map_each f (xs1 ++ xs2) w = (Ok (ys1 ++ ys2), w2).
Proof.
  revert w ys1. induction xs1 as [|x xs1 IH]; intros w ys1 H1 H2.
  - by injection H1 as <- <-.
  - apply map_each_cons_inv in H1 as (y & ys' & w' & Hx & Hxs & ->).
    simpl. unfold bind at 1. rewrite Hx. unfold bind at 1.
    by rewrite (IH _ _ Hxs H2).
Qed.

Lemma map_each_length {W A B : Type} (f : A -> ST W B) xs w ys w' :
  map_each f xs w = (Ok ys, w') -> length ys = length xs.
Proof.
  revert w ys. induction xs as [|x xs IH]; intros w ys H.
  - by injection H as <- <-.
  - apply map_each_cons_inv in H as (y & ys' & w1 & _ & Hxs & ->).
    simpl. by rewrite (IH _ _ Hxs).
Qed.

(** The loop of [load_pdfs] and [load_docx] when every item is parsed. *)
Lemma reader_loop_run {R : Type} (rdr : KnowledgeBaseBuilder -> R) (ev : string -> Event)
    (op : R -> string -> ST World (list Document)) :
  (forall self d, rdr (with_documents self d) = rdr self) ->
  forall paths self env dss w',
    map_each (op (rdr self)) paths (world env) = (Ok dss, w') ->
    for_each paths (fun path =>
      self <- get_self ;;
      docs <- module (call (ev path) (op (rdr self) path)) ;;
      documents_extend docs) (self, env)
    = (Ok tt, (with_documents self (documents self ++ concat dss),
               mkEnv (query_engine env) w' (trace env ++ map ev paths))).
Proof.
  intros Hrdr. induction paths as [|path paths IH]; intros self env dss w' H.
  - injection H as <- <-. simpl.
    rewrite !app_nil_r, with_documents_same. by destruct env.
  - apply map_each_cons_inv in H as (ds & dss' & w1 & H1 & H2 & ->).
    specialize (IH (with_documents self (documents self ++ ds))
                   (mkEnv (query_engine env) w1 (trace env ++ [ev path])) dss' w').
    rewrite Hrdr in IH. specialize (IH H2).
    cbn [for_each]. unfold bind at 1. unfold bind at 1.
    cbn [get_self]. unfold bind at 1. unfold module at 1, call at 1.
    rewrite H1. cbn [documents_extend].
    rewrite IH. cbn [concat map with_documents pdf_reader docx_reader documents index
                     query_engine world trace].
    by rewrite <- !app_assoc.
Qed.

(** The same loop when the item after [before] cannot be parsed. *)
Lemma reader_loop_fail {R : Type} (rdr : KnowledgeBaseBuilder -> R) (ev : string -> Event)
    (op : R -> string -> ST World (list Document)) :
  (forall self d, rdr (with_documents self d) = rdr self) ->
  forall before path rest self env dss w1 e w2,
    map_each (op (rdr self)) before (world env) = (Ok dss, w1) ->
    op (rdr self) path w1 = (Raise e, w2) ->
    for_each (before ++ path :: rest) (fun path =>
      self <- get_self ;;
      docs <- module (call (ev path) (op (rdr self) path)) ;;
      documents_extend docs) (self, env)
    = (Raise e, (with_documents self (documents self ++ concat dss),
                 mkEnv (query_engine env) w2 (trace env ++ map ev before ++ [ev path]))).
Proof.
  intros Hrdr. induction before as [|p before IH];
    intros path rest self env dss w1 e w2 H Hfail.
  - injection H as <- <-. cbn [app for_each].
    unfold bind at 1. unfold bind at 1. cbn [get_self]. unfold bind at 1.
    unfold module at 1, call at 1. rewrite Hfail. cbn [concat map app].
    by rewrite app_nil_r, with_documents_same.
  - apply map_each_cons_inv in H as (ds & dss' & w' & H1 & H2 & ->).
    specialize (IH path rest (with_documents self (documents self ++ ds))
                   (mkEnv (query_engine env) w' (trace env ++ [ev p])) dss' w1 e w2).
    rewrite Hrdr in IH. specialize (IH H2 Hfail).
    cbn [app for_each]. unfold bind at 1. unfold bind at 1.
    cbn [get_self]. unfold bind at 1. unfold module at 1, call at 1.
    rewrite H1. cbn [documents_extend].
    rewrite IH. cbn [concat map with_documents pdf_reader docx_reader documents index
                     query_engine world trace].
    by rewrite <- !app_assoc.
Qed.

Lemma read_text_ok_inv path w d w' :
  read_text path w = (Ok d, w') ->
  exists content, open_read path w = (Ok content, w') /\ d = text_document path content.
Proof.
  unfold read_text, bind. destruct (open_read path w) as [[content|e] w1]; [|discriminate].
  intros [= <- <-]. by exists content.
Qed.

Lemma read_text_raise_inv path w e w' :
  read_text path w = (Raise e, w') -> open_read path w = (Raise e, w').
Proof.
  unfold read_text, bind. destruct (open_read path w) as [[content|x] w1]; [discriminate|].
  by intros [= <- <-].
Qed.

Lemma text_loop_run paths :
  forall self env docs w',
    map_each read_text paths (world env) = (Ok docs, w') ->
    for_each paths (fun path =>
      content <- module (call (Call_open_read path) (open_read path)) ;;
      doc <- module (construct New_Document
                       (mkDocument content {[ "source" := path ]})) ;;
      documents_append doc) (self, env)
    = (Ok tt, (with_documents self (documents self ++ docs),
               mkEnv (query_engine env) w' (trace env ++ items_trace TXT paths docs))).
Proof.
  induction paths as [|path paths IH]; intros self env docs w' H.
  - injection H as <- <-. simpl.
    rewrite !app_nil_r, with_documents_same. by destruct env.
  - apply map_each_cons_inv in H as (d & docs' & w1 & H1 & H2 & ->).
    apply read_text_ok_inv in H1 as (content & Hr & ->).
    specialize (IH (with_documents self (documents self ++ [text_document path content]))
                   (mkEnv (query_engine env) w1
                      ((trace env ++ [Call_open_read path])
                         ++ [New_Document (text_document path content)]))
                   docs' w' H2).
    cbn [for_each]. unfold bind at 1. unfold bind at 1.
    unfold module at 1, call at 1. rewrite Hr.
    unfold bind at 1. cbn. fold (text_document path content).
    rewrite IH. cbn [with_documents pdf_reader docx_reader documents index
                     query_engine world trace].
    by rewrite <- !app_assoc.
Qed.

Lemma text_loop_fail before :
  forall path rest self env docs w1 e w2,
    map_each read_text before (world env) = (Ok docs, w1) ->
    open_read path w1 = (Raise e, w2) ->
    for_each (before ++ path :: rest) (fun path =>
      content <- module (call (Call_open_read path) (open_read path)) ;;
      doc <- module (construct New_Document
                       (mkDocument content {[ "source" := path ]})) ;;
      documents_append doc) (self, env)
    = (Raise e, (with_documents self (documents self ++ docs),
                 mkEnv (query_engine env) w2
                   (trace env ++ items_trace TXT before docs ++ [Call_open_read path]))).
Proof.
  induction before as [|p before IH]; intros path rest self env docs w1 e w2 H Hfail.
  - injection H as <- <-. cbn [app for_each].
    unfold bind at 1. unfold bind at 1. unfold module at 1, call at 1.
    rewrite Hfail. cbn. by rewrite app_nil_r, with_documents_same.
  - apply map_each_cons_inv in H as (d & docs' & w' & H1 & H2 & ->).
    apply read_text_ok_inv in H1 as (content & Hr & ->).
    specialize (IH path rest
                   (with_documents self (documents self ++ [text_document p content]))
                   (mkEnv (query_engine env) w'
                      ((trace env ++ [Call_open_read p])
                         ++ [New_Document (text_document p content)]))
                   docs' w1 e w2 H2 Hfail).
    cbn [app for_each]. unfold bind at 1. unfold bind at 1.
    unfold module at 1, call at 1. rewrite Hr.
    unfold bind at 1. cbn. fold (text_document p content).
    rewrite IH. cbn [with_documents pdf_reader docx_reader documents index
                     query_engine world trace].
    by rewrite <- !app_assoc.
Qed.


(** The run of a loading call whose items all succeed. *)
Lemma load_run src paths self env docs w' :
  fetched src self paths (world env) = (Ok docs, w') ->
  load src paths (self, env)
  = (Ok tt, (with_documents self (documents self ++ docs),
             mkEnv (query_engine env) w' (trace env ++ load_trace src paths docs))).
Proof.
  unfold load_trace, loaded_message.
  destruct src; simpl; intros H.
  - unfold bind in H.
    destruct (map_each _ paths (world env)) as [[dss|e] w1] eqn:Hm; [|discriminate].
    injection H as <- <-. unfold load_pdfs. unfold bind at 1.
    rewrite (reader_loop_run pdf_reader Call_PDFReader_load_data PDFReader_load_data
               (fun _ _ => eq_refl) paths self env dss w1 Hm).
    cbn. by rewrite <- app_assoc.
  - unfold bind in H.
    destruct (map_each _ paths (world env)) as [[dss|e] w1] eqn:Hm; [|discriminate].
    injection H as <- <-. unfold load_docx. unfold bind at 1.
    rewrite (reader_loop_run docx_reader Call_DocxReader_load_data DocxReader_load_data
               (fun _ _ => eq_refl) paths self env dss w1 Hm).
    cbn. by rewrite <- app_assoc.
  - unfold load_text_files. unfold bind at 1.
    rewrite (text_loop_run paths self env docs w' H).
    cbn. by rewrite <- app_assoc.
  - unfold add_web_content, bind, module, construct, call, log, bind, ret. simpl.
    rewrite H. simpl. by rewrite <- !app_assoc.
Qed.

(** X1. A successful loading call makes one library call per path, in the
    order of the list (one call in all for web pages), and then prints one
    message, which gives the number of paths, whatever the number of
    documents obtained. *)
Theorem load_calls_once_per_path (src : Source) (paths : list string)
    (self : KnowledgeBaseBuilder) (env : Env) (docs : list Document) (w' : World) :
  fetched src self paths (world env) = (Ok docs, w') ->
  trace (env_after (load src paths (self, env)))
  = trace env ++ items_trace src paths docs
    ++ [Call_print (loaded_message src (length paths))]
  /\ query_engine (env_after (load src paths (self, env))) = query_engine env.
Proof.
  intros H. by rewrite (load_run src paths self env docs w' H).
Qed.

(** X2. When an item of a PDF, Word or text list cannot be read, the call
    raises that exception at once: the documents of the items before it
    stay in [self.documents], the items after it are not touched, and no
    message is printed. *)
Theorem load_stops_at_first_failure (src : Source) (before : list string)
    (path : string) (rest : list string) (self : KnowledgeBaseBuilder) (env : Env)
    (docs : list Document) (w1 : World) (e : Exception) (w2 : World) :
  src <> WEB ->
  fetched src self before (world env) = (Ok docs, w1) ->
  fetched src self [path] w1 = (Raise e, w2) ->
  load src (before ++ path :: rest) (self, env)
  = (Raise e,
     (with_documents self (documents self ++ docs),
      mkEnv (query_engine env) w2
        (trace env ++ items_trace src before docs ++ [reader_call src path]))).
Proof.
  destruct src; [| | |done]; intros _; simpl; intros Hb Hp.
  - unfold bind in Hb, Hp.
    destruct (map_each _ before (world env)) as [[dss|x] w] eqn:Hm; [|discriminate].
    injection Hb as <- <-.
    destruct (PDFReader_load_data (pdf_reader self) path w) as [[d|x] w'] eqn:Hr;
      [discriminate|]. injection Hp as <- <-.
    unfold load_pdfs. unfold bind at 1.
    by rewrite (reader_loop_fail pdf_reader Call_PDFReader_load_data PDFReader_load_data
                  (fun _ _ => eq_refl) before path rest self env dss w x w' Hm Hr).
  - unfold bind in Hb, Hp.
    destruct (map_each _ before (world env)) as [[dss|x] w] eqn:Hm; [|discriminate].
    injection Hb as <- <-.
    destruct (DocxReader_load_data (docx_reader self) path w) as [[d|x] w'] eqn:Hr;
      [discriminate|]. injection Hp as <- <-.
    unfold load_docx. unfold bind at 1.
    by rewrite (reader_loop_fail docx_reader Call_DocxReader_load_data
                  DocxReader_load_data
                  (fun _ _ => eq_refl) before path rest self env dss w x w' Hm Hr).
  - unfold bind in Hp.
    destruct (open_read path w1) as [[c|x] w'] eqn:Hr; [discriminate|].
    injection Hp as <- <-.
    unfold load_text_files. unfold bind at 1.
    by rewrite (text_loop_fail before path rest self env docs w1 x w' Hb Hr).
Qed.

(** X3. [add_web_content] is all or nothing: when the fetch raises, the
    exception is passed on and the builder is exactly as it was; no page
    of the list is added. *)
Theorem add_web_content_all_or_nothing (urls : list string)
    (self : KnowledgeBaseBuilder) (env : Env) (e : Exception) (w' : World) :
  SimpleWebPageReader_load_data mkSimpleWebPageReader urls (world env) = (Raise e, w') ->
  add_web_content urls (self, env)
  = (Raise e,
     (self, mkEnv (query_engine env) w'
              (trace env ++ [ New_SimpleWebPageReader;
                              Call_SimpleWebPageReader_load_data urls ]))).
Proof.
  intros H. unfold add_web_content, bind, module, construct, call, log, bind, ret.
  simpl. rewrite H. simpl. by rewrite <- !app_assoc.
Qed.

(** X4. Loading an empty list of PDF, Word or text files touches no library
    and leaves the builder as it was; it only prints that 0 files were
    loaded.  [add_web_content] on an empty list still calls the web
    reader, with the empty list. *)
Theorem load_empty (src : Source) (self : KnowledgeBaseBuilder) (env : Env) :
  match src with
  | WEB =>
      trace (env_after (add_web_content [] (self, env)))
      = trace env ++ [New_SimpleWebPageReader; Call_SimpleWebPageReader_load_data []]
        ++ match fst (add_web_content [] (self, env)) with
           | Ok _ => [Call_print "Loaded 0 web pages"]
           | Raise _ => []
           end
  | _ =>
      load src [] (self, env)
      = (Ok tt, (self, mkEnv (query_engine env) (world env)
                         (trace env ++ [Call_print (loaded_message src 0)])))
  end.
Proof.
  destruct src; try reflexivity.
  unfold env_after, add_web_content, bind, module, construct, call, log, bind, ret.
  simpl. destruct (SimpleWebPageReader_load_data _ _ _) as [[docs|e] w]; simpl;
    by rewrite <- !app_assoc.
Qed.

Lemma fetched_app src self p1 p2 w d1 w1 d2 w2 :
  src <> WEB ->
  fetched src self p1 w = (Ok d1, w1) ->
  fetched src self p2 w1 = (Ok d2, w2) ->
  fetched src self (p1 ++ p2) w = (Ok (d1 ++ d2), w2).
Proof.
  destruct src; [| | |done]; intros _; simpl; intros H1 H2.
  - unfold bind in *.
    destruct (map_each _ p1 w) as [[dss1|x] w'] eqn:Hm1; [|discriminate].
    injection H1 as <- <-.
    destruct (map_each _ p2 w') as [[dss2|x] w''] eqn:Hm2; [|discriminate].
    injection H2 as <- <-.
    rewrite (map_each_app_ok _ _ _ _ _ _ _ _ Hm1 Hm2). by rewrite concat_app.
  - unfold bind in *.
    destruct (map_each _ p1 w) as [[dss1|x] w'] eqn:Hm1; [|discriminate].
    injection H1 as <- <-.
    destruct (map_each _ p2 w') as [[dss2|x] w''] eqn:Hm2; [|discriminate].
    injection H2 as <- <-.
    rewrite (map_each_app_ok _ _ _ _ _ _ _ _ Hm1 Hm2). by rewrite concat_app.
  - exact (map_each_app_ok _ _ _ _ _ _ _ _ H1 H2).
Qed.

(** X5. For PDF, Word and text files, one call on the list [p1 ++ p2] and
    two calls, on [p1] and then on [p2], leave the same builder and the
    same world: the documents of [p1] followed by those of [p2]. *)
Theorem load_app (src : Source) (p1 p2 : list string)
    (self : KnowledgeBaseBuilder) (env : Env)
    (d1 d2 : list Document) (w1 w2 : World) :
  src <> WEB ->
  fetched src self p1 (world env) = (Ok d1, w1) ->
  fetched src self p2 w1 = (Ok d2, w2) ->
  self_after (load src (p1 ++ p2) (self, env))
  = with_documents self (documents self ++ d1 ++ d2)
  /\ self_after ((load src p1 ;; load src p2) (self, env))
     = with_documents self (documents self ++ d1 ++ d2)
  /\ world (env_after (load src (p1 ++ p2) (self, env))) = w2
  /\ world (env_after ((load src p1 ;; load src p2) (self, env))) = w2.
Proof.
  intros Hsrc H1 H2.
  rewrite (load_run src (p1 ++ p2) self env (d1 ++ d2) w2
             (fetched_app src self p1 p2 _ d1 w1 d2 w2 Hsrc H1 H2)).
  unfold bind at 1. unfold bind at 1.
  rewrite (load_run src p1 self env d1 w1 H1).
  assert (H2' : fetched src (with_documents self (documents self ++ d1)) p2
                  (world (mkEnv (query_engine env) w1
                            (trace env ++ load_trace src p1 d1)))
                = (Ok d2, w2)) by (by destruct src).
  rewrite (load_run src p2 _ _ d2 w2 H2').
  unfold self_after, env_after. cbn. by rewrite <- app_assoc.
Qed.

End LoadingFacts.

Section TextFacts.
Context `{P : Platform}.

Lemma text_loop_ok_inv paths :
  forall self env self' env',
    for_each paths (fun path =>
      content <- module (call (Call_open_read path) (open_read path)) ;;
      doc <- module (construct New_Document
                       (mkDocument content {[ "source" := path ]})) ;;
      documents_append doc) (self, env)
    = (Ok tt, (self', env')) ->
    exists contents,
      length contents = length paths
      /\ self' = with_documents self
                   (documents self ++ zip_with text_document paths contents).
Proof.
  induction paths as [|path paths IH]; intros self env self' env' H.
  - injection H as <- <-. exists []. split; [done|]. simpl.
    by rewrite app_nil_r, with_documents_same.
  - cbn [for_each] in H. unfold bind at 1 in H. unfold bind at 1 in H.
    unfold module at 1, call at 1 in H.
    destruct (open_read path (world env)) as [[content|e] w1]; [|discriminate].
    unfold bind at 1 in H. cbn in H.
    apply IH in H as (contents & Hlen & ->).
    exists (content :: contents). split; [simpl; by rewrite Hlen|].
    cbn [with_documents pdf_reader docx_reader documents index zip_with].
    by rewrite <- app_assoc.
Qed.

(** X6. A successful [load_text_files] adds exactly one document per path,
    in the order of the list; the metadata of each is the dictionary with
    the single key [source], bound to the path of the file. *)
Theorem load_text_files_one_document_per_file (txt_paths : list string)
    (self self' : KnowledgeBaseBuilder) (env env' : Env) :
  load_text_files txt_paths (self, env) = (Ok tt, (self', env')) ->
  exists docs,
    documents self' = documents self ++ docs
    /\ length docs = length txt_paths
    /\ forall i path, txt_paths !! i = Some path ->
         exists doc, docs !! i = Some doc
                     /\ metadata doc !! "source" = Some path
                     /\ forall key, key <> "source" -> metadata doc !! key = None.
Proof.
  unfold load_text_files. intros H. unfold bind at 1 in H.
  destruct (for_each _ _ _) as [[[]|e] [self1 env1]] eqn:Hloop; [|discriminate].
  apply text_loop_ok_inv in Hloop as (contents & Hlen & ->).
  unfold module, print, log in H. injection H as <- _.
  exists (zip_with text_document txt_paths contents).
  split; [done|]. split; [rewrite length_zip_with; lia|].
  intros i path Hi.
  destruct (lookup_lt_is_Some_2 contents i) as [content Hc].
  { rewrite Hlen. by eapply lookup_lt_Some. }
  exists (text_document path content). split.
  - rewrite lookup_zip_with, Hi. simpl. by rewrite Hc.
  - split; [apply lookup_singleton_eq|].
    intros key Hkey. by apply lookup_singleton_ne.
Qed.

End TextFacts.

Section IndexLifeCycle.
Context `{P : Platform}.

Ltac run_method :=
  unfold build_index, load_index, get_query_engine, bind, get_self, module, construct,
    print, log, call, set_index, raise, bind, ret, SimpleNodeParser_from_defaults,
    as_query_engine;
  cbn [default from_option id world trace query_engine documents pdf_reader
       docx_reader index].

(** X7. When the storage context is read and the index is loaded from it,
    [load_index] stores the loaded index in [self.index] and returns it;
    the directory is [./storage] when the argument is left out, and the
    documents of the builder are untouched. *)
Theorem load_index_loads_stores_returns (persist_dir : option string)
    (self : KnowledgeBaseBuilder) (env : Env)
    (ctx : StorageContext) (idx : Index) (w1 w2 : World) :
  StorageContext_from_defaults (default "./storage" persist_dir) (world env)
    = (Ok ctx, w1) ->
  load_index_from_storage ctx w1 = (Ok idx, w2) ->
  load_index persist_dir (self, env)
  = (Ok idx,
     (mkKnowledgeBaseBuilder (pdf_reader self) (docx_reader self)
        (documents self) (Some idx),
      mkEnv (query_engine env) w2
        (trace env ++
         [ Call_StorageContext_from_defaults (default "./storage" persist_dir);
           Call_load_index_from_storage;
           Call_print "Index loaded from disk" ]))).
Proof.
  intros Hctx Hidx. run_method.
  rewrite Hctx. cbn [world trace query_engine].
  rewrite Hidx. cbn [world trace query_engine documents pdf_reader docx_reader index].
  by rewrite <- !app_assoc.
Qed.

Lemma build_index_ok_inv persist_dir self env idx self' env' :
  build_index persist_dir (self, env) = (Ok idx, (self', env')) ->
  self' = mkKnowledgeBaseBuilder (pdf_reader self) (docx_reader self)
            (documents self) (Some idx).
Proof.
  run_method.
  destruct (get_nodes_from_documents _ _ _) as [[nodes|e] w1];
    cbn [world trace query_engine]; [|discriminate].
  destruct (VectorStoreIndex_init nodes w1) as [[i|e] w2];
    cbn [world trace query_engine documents pdf_reader docx_reader index]; [|discriminate].
  destruct (storage_context_persist i _ w2) as [[[]|e] w3]; [|discriminate].
  by intros [= <- <- _].
Qed.

Lemma load_index_ok_inv persist_dir self env idx self' env' :
  load_index persist_dir (self, env) = (Ok idx, (self', env')) ->
  self' = mkKnowledgeBaseBuilder (pdf_reader self) (docx_reader self)
            (documents self) (Some idx).
Proof.
  run_method.
  destruct (StorageContext_from_defaults _ _) as [[ctx|e] w1];
    cbn [world trace query_engine]; [|discriminate].
  destruct (load_index_from_storage ctx w1) as [[i|e] w2];
    cbn [world trace query_engine documents pdf_reader docx_reader index]; [|discriminate].
  by intros [= <- <- _].
Qed.

(** X8. Once [build_index] or [load_index] has returned an index, that
    index is in [self.index], the documents are what they were, and
    [get_query_engine] no longer raises: in any later state it returns the
    query engine of that very index. *)
Theorem index_then_query_engine (persist_dir : option string)
    (self self' : KnowledgeBaseBuilder) (env env' : Env) (idx : Index) :
  build_index persist_dir (self, env) = (Ok idx, (self', env'))
  \/ load_index persist_dir (self, env) = (Ok idx, (self', env')) ->
  index self' = Some idx
  /\ documents self' = documents self
  /\ forall similarity_top_k env1,
       get_query_engine similarity_top_k (self', env1)
       = (Ok (mkQueryEngine idx (default 5%Z similarity_top_k) "compact"),
          (self', mkEnv (query_engine env1) (world env1)
                    (trace env1 ++
                     [Call_as_query_engine
                        (mkQueryEngine idx (default 5%Z similarity_top_k)
                           "compact")]))).
Proof.
  intros H.
  assert (Hs : self' = mkKnowledgeBaseBuilder (pdf_reader self) (docx_reader self)
                         (documents self) (Some idx)).
  { destruct H as [H|H]; [by eapply build_index_ok_inv|by eapply load_index_ok_inv]. }
  subst self'. split; [done|]. split; [done|]. intros k env1. by run_method.
Qed.

(** X9. When the documents are chunked and indexed but persisting raises,
    [build_index] passes the exception on with the new index already
    stored in [self.index]: the index is usable although it was not
    saved, and the closing message is not printed. *)
Theorem build_index_persist_failure_keeps_index (persist_dir : option string)
    (self : KnowledgeBaseBuilder) (env : Env)
    (nodes : list Node) (idx : Index) (w1 w2 w3 : World) (e : Exception) :
  get_nodes_from_documents (mkSimpleNodeParser 512 50) (documents self) (world env)
    = (Ok nodes, w1) ->
  VectorStoreIndex_init nodes w1 = (Ok idx, w2) ->
  storage_context_persist idx (default "./storage" persist_dir) w2 = (Raise e, w3) ->
  build_index persist_dir (self, env)
  = (Raise e,
     (mkKnowledgeBaseBuilder (pdf_reader self) (docx_reader self)
        (documents self) (Some idx),
      mkEnv (query_engine env) w3
        (trace env ++
         [ Call_print ("Building index from " +:+ str_of_nat (length (documents self))
                       +:+ " documents...");
           Call_from_defaults (Some 512%Z) (Some 50%Z);
           Call_get_nodes_from_documents (mkSimpleNodeParser 512 50) (documents self);
           New_VectorStoreIndex nodes;
           Call_persist idx (default "./storage" persist_dir) ]))).
Proof.
  intros Hnodes Hidx Hpersist. run_method.
  rewrite Hnodes. cbn [world trace query_engine].
  rewrite Hidx. cbn [world trace query_engine documents pdf_reader docx_reader index].
  rewrite Hpersist. cbn [world trace query_engine].
  by rewrite <- !app_assoc.
Qed.

(** X10. Whatever the outcome, [build_index] and [load_index] leave the
    documents of the builder as they were.  When [load_index] raises, the
    builder is unchanged; when [build_index] raises, the builder is
    unchanged too, unless it was the persist call, its last effect, that
    raised: then [self.index] holds the new index. *)
Theorem index_methods_frame (persist_dir : option string)
    (self : KnowledgeBaseBuilder) (env : Env) :
  let b := build_index persist_dir (self, env) in
  let l := load_index persist_dir (self, env) in
  documents (self_after b) = documents self
  /\ documents (self_after l) = documents self
  /\ (forall e, fst l = Raise e -> self_after l = self)
  /\ (forall e, fst b = Raise e ->
        self_after b = self
        \/ exists idx,
             index (self_after b) = Some idx
             /\ last (trace (env_after b))
                = Some (Call_persist idx (default "./storage" persist_dir))).
Proof.
  unfold self_after, env_after. run_method.
  destruct (get_nodes_from_documents _ _ _) as [[nodes|e] w1];
    cbn [world trace query_engine];
    [destruct (VectorStoreIndex_init nodes w1) as [[idx|e] w2];
     cbn [world trace query_engine documents pdf_reader docx_reader index];
     [destruct (storage_context_persist idx _ w2) as [[[]|e] w3]|]|];
  (destruct (StorageContext_from_defaults _ _) as [[ctx|e'] w1'];
    cbn [world trace query_engine];
    [destruct (load_index_from_storage ctx w1') as [[i|e'] w2']|]);
  cbn [fst snd world trace query_engine documents pdf_reader docx_reader index];
  destruct self as [pr dr docs ix];
  (split; [reflexivity|]); (split; [reflexivity|]);
  (split; [first [discriminate | reflexivity]|]);
  first [discriminate | intros x _ ].
  all: first [ by left | right; eexists; split; [reflexivity|by rewrite last_snoc] ].
Qed.

End IndexLifeCycle.

Section ToolAndCrew.
Context `{P : Platform}.

(** X11. When the global query engine is set and the query raises,
    [search_knowledge_base] does not catch the exception: it raises it,
    and no error string is returned. *)
Theorem search_knowledge_base_propagates (q : string) (env : Env)
    (qe : QueryEngine Index) (e : Exception) (w' : World) :
  query_engine env = Some qe ->
  query qe q (world env) = (Raise e, w') ->
  search_knowledge_base q env
  = (Raise e, mkEnv (Some qe) w' (trace env ++ [Call_query qe q])).
Proof.
  intros Hqe Hq.
  unfold search_knowledge_base, bind, get_query_engine_global, call, ret.
  rewrite Hqe. cbn. rewrite Hq. by rewrite Hqe.
Qed.

(** X12. Whatever the outcome, [search_knowledge_base] never assigns the
    global query engine and makes at most one library call, the query
    itself on the engine of the global; it makes none when the global is
    [None]. *)
Theorem search_knowledge_base_frame (q : string) (env : Env) :
  let r := search_knowledge_base q env in
  query_engine (snd r) = query_engine env
  /\ match query_engine env with
     | None => snd r = env
     | Some qe => trace (snd r) = trace env ++ [Call_query qe q]
     end.
Proof.
  unfold search_knowledge_base, bind, get_query_engine_global, call, ret.
  destruct (query_engine env) as [qe|] eqn:Hqe; cbn; [|done].
  destruct (query qe q (world env)) as [[resp|e] w]; cbn; by rewrite ?Hqe.
Qed.

(** X13. The constructor of [KnowledgeBaseBuilder] never raises; the new
    builder has no documents and no index, so [get_query_engine] on it
    raises [ValueError], whatever the state, until an index is built or
    loaded. *)
Theorem new_builder_has_no_index (groq_api_key : option string) (env : Env) :
  exists kb env1,
    KnowledgeBaseBuilder_init groq_api_key env = (Ok kb, env1)
    /\ documents kb = []
    /\ index kb = None
    /\ query_engine env1 = query_engine env
    /\ forall similarity_top_k env2,
         get_query_engine similarity_top_k (kb, env2)
         = (Raise (ValueError "Index not built. Call build_index() first."),
            (kb, env2)).
Proof.
  eexists _, _. split; [reflexivity|]. repeat split.
Qed.

(** X14. The topic is passed on to the crew through the description of
    the research task only: whenever [create_analysis_crew] returns for
    two topics, the arguments given to [Agent], and the description, agent
    and expected output given to [Task] for the analysis and the report
    tasks, are the same; the description of the research task is the fixed
    text around the topic. *)
Theorem crew_depends_on_topic_through_research_task (self : AnalysisCrewBuilder)
    (topic1 topic2 : string) (env : Env) (crew1 crew2 : Crew) (env1 env2 : Env) :
  create_analysis_crew self topic1 env = (Ok crew1, env1) ->
  create_analysis_crew self topic2 env = (Ok crew2, env2) ->
  agents crew1 = agents crew2
  /\ map description (tail (tasks crew1)) = map description (tail (tasks crew2))
  /\ map agent (tasks crew1) = map agent (tasks crew2)
  /\ map expected_output (tasks crew1) = map expected_output (tasks crew2)
  /\ (exists task1 task2,
        head (tasks crew1) = Some task1 /\ head (tasks crew2) = Some task2
        /\ description task1
           = py_lines
               [ "Research the following topic using the knowledge base:";
                 "            " +:+ topic1;
                 "            ";
                 "            Find all relevant information, key facts, and important details." ]
        /\ description task2
           = py_lines
               [ "Research the following topic using the knowledge base:";
                 "            " +:+ topic2;
                 "            ";
                 "            Find all relevant information, key facts, and important details." ]).
Proof.
  unfold create_analysis_crew, create_research_agent, create_data_analyst_agent,
    create_report_writer_agent, construct, log, bind, ret.
  cbn [world trace query_engine].
  intros [= <- _] [= <- _].
  cbn [agents tasks map tail head description agent expected_output].
  split; [reflexivity|]. split; [reflexivity|]. split; [reflexivity|].
  split; [reflexivity|]. eexists _, _. by repeat split.
Qed.

Tactic Notation "peel" hyp(H) "into" ident(v) ident(s)
    "by" uconstr(L) "as" simple_intropattern(pat) :=
  let Hs := fresh "Hs" in
  apply bind_ok_inv in H as (v & s & Hs & H);
  apply L in Hs as pat;
  cbv beta zeta in H.

Lemma create_analysis_crew_ok_inv self topic env crew env' :
  create_analysis_crew self topic env = (Ok crew, env') ->
  query_engine env' = query_engine env.
Proof. by intros [= <- <-]. Qed.

Lemma main_ok_facts (env env' : Env) :
  main env = (Ok tt, env') ->
  exists nodes idx,
    In (New_VectorStoreIndex nodes) (trace env')
    /\ In (Call_persist idx "./storage") (trace env')
    /\ query_engine env' = Some (mkQueryEngine idx 5 "compact").
Proof.
  intros H. unfold main in H.
  peel H into v1 s1 by getenv_ok_inv as [-> [T1 Q1]].
  peel H into v2 s2 by print_ok_inv as [T2 Q2].
  peel H into v3 s3 by print_ok_inv as [T3 Q3].
  peel H into v4 s4 by print_ok_inv as [T4 Q4].
  peel H into v5 s5 by KnowledgeBaseBuilder_init_ok_inv as [-> [T5 Q5]].
  peel H into v6 s6 by main_load_pdfs_ok_inv as (d1 & -> & T6 & Q6).
  peel H into v7 s7 by main_load_docx_ok_inv as (d2 & -> & T7 & Q7).
  peel H into v8 s8 by main_load_text_files_ok_inv as (notes & summary & -> & T8 & Q8).
  peel H into v9 s9 by main_add_web_content_ok_inv as (d3 & -> & T9 & Q9).
  peel H into v10 s10 by main_build_index_ok_inv as (nodes & idx & -> & T10 & Q10).
  peel H into v11 s11 by main_get_query_engine_ok_inv as (idx' & [= <-] & Hr & T11 & Q11).
  peel H into v12 s12 by set_query_engine_global_ok_inv as [T12 Q12].
  peel H into v13 s13 by print_ok_inv as [T13 Q13].
  peel H into v14 s14 by print_ok_inv as [T14 Q14].
  peel H into v15 s15 by print_ok_inv as [T15 Q15].
  peel H into v16 s16 by AnalysisCrewBuilder_init_ok_inv as [-> [T16 Q16]].
  apply bind_ok_inv in H as (crew & s17 & Hcrew & H). cbv beta in H.
  assert (T17 : exists l, trace s17 = trace s16 ++ l).
  { injection Hcrew as _ <-. cbn [trace]. rewrite <- !app_assoc. by eexists. }
  apply create_analysis_crew_ok_inv in Hcrew as Q17.
  destruct T17 as [l17 T17].
  peel H into v18 s18 by call_ok_inv as [T18 Q18].
  peel H into v19 s19 by print_ok_inv as [T19 Q19].
  peel H into v20 s20 by print_ok_inv as [T20 Q20].
  peel H into v21 s21 by print_ok_inv as [T21 Q21].
  peel H into v22 s22 by print_ok_inv as [T22 Q22].
  peel H into v23 s23 by call_ok_inv as [T23 Q23].
  apply print_ok_inv in H as [T24 Q24].
  exists nodes, idx.
  assert (Hin : forall e, In e (trace s10) -> In e (trace env')).
  { intros e He.
    rewrite T24, T23, T22, T21, T20, T19, T18, T17, T16, T15, T14, T13, T12, T11.
    repeat (apply in_or_app; left). exact He. }
  split; [apply Hin; rewrite T10; apply in_or_app; right; simpl; tauto|].
  split; [apply Hin; rewrite T10; apply in_or_app; right; simpl; tauto|].
  by rewrite Q24, Q23, Q22, Q21, Q20, Q19, Q18, Q17, Q16, Q15, Q14, Q13, Q12, Hr.
Qed.

(** X17. When [main] has completed, the search tool is initialised: the
    global query engine is the engine of the index built during the run,
    with [similarity_top_k] 5 and response mode [compact], and every call
    of [search_knowledge_base] queries that engine; it returns the string
    form of the answer, or raises what the query raises. *)
Theorem main_then_search_knowledge_base (env env' : Env) :
  main env = (Ok tt, env') ->
  exists nodes idx,
    In (New_VectorStoreIndex nodes) (trace env')
    /\ In (Call_persist idx "./storage") (trace env')
    /\ query_engine env' = Some (mkQueryEngine idx 5 "compact")
    /\ forall q,
         fst (search_knowledge_base q env')
         = match fst (query (mkQueryEngine idx 5 "compact") q (world env')) with
           | Ok response => Ok (str_Response response)
           | Raise e => Raise e
           end.
Proof.
  intros H.
  destruct (main_ok_facts env env' H)
    as (nodes & idx & Hn & Hp & Hq).
  exists nodes, idx. split; [done|]. split; [done|]. split; [done|].
  intros q. unfold search_knowledge_base, bind, get_query_engine_global, call, ret.
  rewrite Hq. cbn.
  by destruct (query _ q (world env')) as [[resp|e] w].
Qed.

End ToolAndCrew.

(** * The further properties on the concrete platforms *)

Lemma load_calls_once_per_path_witness :
  fetched TXT demo_builder ["./data/notes.txt"; "./data/summary.txt"] (world demo_env)
  = (Ok [ text_document "./data/notes.txt" "text of ./data/notes.txt";
          text_document "./data/summary.txt" "text of ./data/summary.txt" ], [])
  /\ trace (env_after (load TXT ["./data/notes.txt"; "./data/summary.txt"]
                         (demo_builder, demo_env)))
     = trace demo_env
       ++ items_trace TXT ["./data/notes.txt"; "./data/summary.txt"]
            [ text_document "./data/notes.txt" "text of ./data/notes.txt";
              text_document "./data/summary.txt" "text of ./data/summary.txt" ]
       ++ [Call_print (loaded_message TXT 2)]
  /\ query_engine (env_after (load TXT ["./data/notes.txt"; "./data/summary.txt"]
                                (demo_builder, demo_env)))
     = query_engine demo_env.
Proof.
  split; [reflexivity|].
  apply (load_calls_once_per_path TXT ["./data/notes.txt"; "./data/summary.txt"]
           demo_builder demo_env _ []).
  reflexivity.
Defined.

Lemma load_stops_at_first_failure_witness :
  PDF <> WEB
  /\ fetched PDF demo_loaded_builder ["./data/report1.pdf"] (world demo_env)
     = (Ok (demo_pdf_docs "./data/report1.pdf"), [])
  /\ fetched PDF demo_loaded_builder ["./data/missing.pdf"] []
     = (Raise (FileNotFoundError "./data/missing.pdf"), [])
  /\ load PDF (["./data/report1.pdf"] ++ "./data/missing.pdf" :: ["./data/analysis.pdf"])
       (demo_loaded_builder, demo_env)
     = (Raise (FileNotFoundError "./data/missing.pdf"),
        (with_documents demo_loaded_builder
           (documents demo_loaded_builder ++ demo_pdf_docs "./data/report1.pdf"),
         mkEnv (query_engine demo_env) []
           (trace demo_env
            ++ items_trace PDF ["./data/report1.pdf"]
                 (demo_pdf_docs "./data/report1.pdf")
            ++ [reader_call PDF "./data/missing.pdf"]))).
Proof.
  split; [discriminate|]. split; [reflexivity|]. split; [reflexivity|].
  apply (load_stops_at_first_failure PDF ["./data/report1.pdf"] "./data/missing.pdf"
           ["./data/analysis.pdf"] demo_loaded_builder demo_env
           (demo_pdf_docs "./data/report1.pdf") []
           (FileNotFoundError "./data/missing.pdf") []);
    [discriminate|reflexivity|reflexivity].
Defined.

Lemma load_app_witness :
  DOCX <> WEB
  /\ fetched DOCX demo_builder ["a.docx"] (world demo_env)
     = (Ok [mkDocument "docx a.docx" ∅], [])
  /\ fetched DOCX demo_builder ["b.docx"; "c.docx"] []
     = (Ok [mkDocument "docx b.docx" ∅; mkDocument "docx c.docx" ∅], [])
  /\ self_after (load DOCX (["a.docx"] ++ ["b.docx"; "c.docx"]) (demo_builder, demo_env))
     = with_documents demo_builder
         (documents demo_builder ++ [mkDocument "docx a.docx" ∅]
          ++ [mkDocument "docx b.docx" ∅; mkDocument "docx c.docx" ∅])
  /\ self_after ((load DOCX ["a.docx"] ;; load DOCX ["b.docx"; "c.docx"])
                   (demo_builder, demo_env))
     = with_documents demo_builder
         (documents demo_builder ++ [mkDocument "docx a.docx" ∅]
          ++ [mkDocument "docx b.docx" ∅; mkDocument "docx c.docx" ∅])
  /\ world (env_after (load DOCX (["a.docx"] ++ ["b.docx"; "c.docx"])
                         (demo_builder, demo_env))) = []
  /\ world (env_after ((load DOCX ["a.docx"] ;; load DOCX ["b.docx"; "c.docx"])
                         (demo_builder, demo_env))) = [].
Proof.
  split; [discriminate|]. split; [reflexivity|]. split; [reflexivity|].
  apply (load_app DOCX ["a.docx"] ["b.docx"; "c.docx"] demo_builder demo_env
           [mkDocument "docx a.docx" ∅]
           [mkDocument "docx b.docx" ∅; mkDocument "docx c.docx" ∅] [] []);
    [discriminate|reflexivity|reflexivity].
Defined.

Lemma load_text_files_one_document_per_file_witness :
  load_text_files ["./data/notes.txt"; "./data/summary.txt"]
    (demo_loaded_builder, demo_env)
  = (Ok tt,
     (self_after (load_text_files ["./data/notes.txt"; "./data/summary.txt"]
                    (demo_loaded_builder, demo_env)),
      env_after (load_text_files ["./data/notes.txt"; "./data/summary.txt"]
                   (demo_loaded_builder, demo_env))))
  /\ exists docs,
       documents (self_after (load_text_files ["./data/notes.txt"; "./data/summary.txt"]
                                (demo_loaded_builder, demo_env)))
       = documents demo_loaded_builder ++ docs
       /\ length docs = length ["./data/notes.txt"; "./data/summary.txt"]
       /\ forall i path,
            ["./data/notes.txt"; "./data/summary.txt"] !! i = Some path ->
            exists doc, docs !! i = Some doc
                        /\ metadata doc !! "source" = Some path
                        /\ forall key, key <> "source" -> metadata doc !! key = None.
Proof.
  split; [reflexivity|].
  apply (load_text_files_one_document_per_file
           ["./data/notes.txt"; "./data/summary.txt"] demo_loaded_builder
           (self_after (load_text_files ["./data/notes.txt"; "./data/summary.txt"]
                          (demo_loaded_builder, demo_env)))
           demo_env
           (env_after (load_text_files ["./data/notes.txt"; "./data/summary.txt"]
                         (demo_loaded_builder, demo_env)))).
  reflexivity.
Defined.

Lemma load_index_loads_stores_returns_witness :
  StorageContext_from_defaults (default "./storage" None) (world demo_env)
  = (Ok "./storage", [])
  /\ load_index_from_storage "./storage" [] = (Ok [], [])
  /\ load_index None (demo_loaded_builder, demo_env)
     = (Ok [],
        (mkKnowledgeBaseBuilder (pdf_reader demo_loaded_builder)
           (docx_reader demo_loaded_builder) (documents demo_loaded_builder) (Some []),
         mkEnv (query_engine demo_env) []
           (trace demo_env ++
            [ Call_StorageContext_from_defaults (default "./storage" None);
              Call_load_index_from_storage;
              Call_print "Index loaded from disk" ]))).
Proof.
  split; [reflexivity|]. split; [reflexivity|].
  apply (load_index_loads_stores_returns None demo_loaded_builder demo_env
           "./storage" [] [] []); reflexivity.
Defined.

Lemma index_then_query_engine_witness :
  (build_index None (demo_loaded_builder, demo_env)
   = (Ok ["hello"],
      (self_after (build_index None (demo_loaded_builder, demo_env)),
       env_after (build_index None (demo_loaded_builder, demo_env))))
   \/ load_index None (demo_loaded_builder, demo_env)
      = (Ok ["hello"],
         (self_after (build_index None (demo_loaded_builder, demo_env)),
          env_after (build_index None (demo_loaded_builder, demo_env)))))
  /\ index (self_after (build_index None (demo_loaded_builder, demo_env)))
     = Some ["hello"]
  /\ documents (self_after (build_index None (demo_loaded_builder, demo_env)))
     = documents demo_loaded_builder
  /\ forall similarity_top_k env1,
       get_query_engine similarity_top_k
         (self_after (build_index None (demo_loaded_builder, demo_env)), env1)
       = (Ok (mkQueryEngine ["hello"] (default 5%Z similarity_top_k) "compact"),
          (self_after (build_index None (demo_loaded_builder, demo_env)),
           mkEnv (query_engine env1) (world env1)
             (trace env1 ++
              [Call_as_query_engine
                 (mkQueryEngine ["hello"] (default 5%Z similarity_top_k)
                    "compact")]))).
Proof.
  split; [left; reflexivity|].
  apply (index_then_query_engine None demo_loaded_builder
           (self_after (build_index None (demo_loaded_builder, demo_env)))
           demo_env
           (env_after (build_index None (demo_loaded_builder, demo_env)))
           ["hello"]).
  left. reflexivity.
Defined.

Lemma main_then_search_knowledge_base_witness :
  main demo_env = (Ok tt, snd (main demo_env))
  /\ exists nodes idx,
       In (New_VectorStoreIndex nodes) (trace (snd (main demo_env)))
       /\ In (Call_persist idx "./storage") (trace (snd (main demo_env)))
       /\ query_engine (snd (main demo_env)) = Some (mkQueryEngine idx 5 "compact")
       /\ forall q,
            fst (search_knowledge_base q (snd (main demo_env)))
            = match fst (query (mkQueryEngine idx 5 "compact") q
                           (world (snd (main demo_env)))) with
              | Ok response => Ok (str_Response response)
              | Raise e => Raise e
              end.
Proof.
  split; [vm_compute; reflexivity|].
  apply (main_then_search_knowledge_base demo_env (snd (main demo_env))).
  vm_compute; reflexivity.
Defined.

Lemma crew_depends_on_topic_through_research_task_witness :
  exists crew1 crew2 env1 env2,
    create_analysis_crew
      (mkAnalysisCrewBuilder (mkChatGroq "llama-3.3-70b-versatile" (Some "gsk") lit_0_7))
      "market trends" demo_env = (Ok crew1, env1)
    /\ create_analysis_crew
         (mkAnalysisCrewBuilder (mkChatGroq "llama-3.3-70b-versatile" (Some "gsk") lit_0_7))
         "supply risks" demo_env = (Ok crew2, env2)
    /\ agents crew1 = agents crew2
    /\ map description (tail (tasks crew1)) = map description (tail (tasks crew2))
    /\ map agent (tasks crew1) = map agent (tasks crew2)
    /\ map expected_output (tasks crew1) = map expected_output (tasks crew2)
    /\ (exists task1 task2,
          head (tasks crew1) = Some task1 /\ head (tasks crew2) = Some task2
          /\ description task1
             = py_lines
                 [ "Research the following topic using the knowledge base:";
                   "            " +:+ "market trends";
                   "            ";
                   "            Find all relevant information, key facts, and important details." ]
          /\ description task2
             = py_lines
                 [ "Research the following topic using the knowledge base:";
                   "            " +:+ "supply risks";
                   "            ";
                   "            Find all relevant information, key facts, and important details." ]).
Proof.
  eexists _, _, _, _. split; [reflexivity|]. split; [reflexivity|].
  eapply (crew_depends_on_topic_through_research_task
            (mkAnalysisCrewBuilder
               (mkChatGroq "llama-3.3-70b-versatile" (Some "gsk") lit_0_7))
            "market trends" "supply risks" demo_env); reflexivity.
Defined.

Section OnTheFaultyPlatform.
#[local] Existing Instance faulty_platform | 0.

Lemma add_web_content_all_or_nothing_witness :
  SimpleWebPageReader_load_data mkSimpleWebPageReader
    ["https://example.com/article1"; "https://down.example"] (world faulty_env)
  = (Raise (mkException "ConnectionError" "https://down.example"), [])
  /\ add_web_content ["https://example.com/article1"; "https://down.example"]
       (faulty_builder, faulty_env)
     = (Raise (mkException "ConnectionError" "https://down.example"),
        (faulty_builder,
         mkEnv (query_engine faulty_env) []
           (trace faulty_env ++
            [ New_SimpleWebPageReader;
              Call_SimpleWebPageReader_load_data
                ["https://example.com/article1"; "https://down.example"] ]))).
Proof.
  split; [reflexivity|].
  apply (add_web_content_all_or_nothing
           ["https://example.com/article1"; "https://down.example"]
           faulty_builder faulty_env
           (mkException "ConnectionError" "https://down.example") []).
  reflexivity.
Defined.

Lemma build_index_persist_failure_keeps_index_witness :
  get_nodes_from_documents (mkSimpleNodeParser 512 50) (documents faulty_builder)
    (world faulty_env) = (Ok ["hello"], [])
  /\ VectorStoreIndex_init ["hello"] [] = (Ok ["hello"], [])
  /\ storage_context_persist ["hello"] (default "./storage" (Some "/readonly")) []
     = (Raise (mkException "PermissionError" "/readonly"), [])
  /\ build_index (Some "/readonly") (faulty_builder, faulty_env)
     = (Raise (mkException "PermissionError" "/readonly"),
        (mkKnowledgeBaseBuilder (pdf_reader faulty_builder) (docx_reader faulty_builder)
           (documents faulty_builder) (Some ["hello"]),
         mkEnv (query_engine faulty_env) []
           (trace faulty_env ++
            [ Call_print ("Building index from "
                          +:+ str_of_nat (length (documents faulty_builder))
                          +:+ " documents...");
              Call_from_defaults (Some 512%Z) (Some 50%Z);
              Call_get_nodes_from_documents (mkSimpleNodeParser 512 50)
                (documents faulty_builder);
              New_VectorStoreIndex ["hello"];
              Call_persist ["hello"] (default "./storage" (Some "/readonly")) ]))).
Proof.
  split; [reflexivity|]. split; [reflexivity|]. split; [reflexivity|].
  apply (build_index_persist_failure_keeps_index (Some "/readonly") faulty_builder
           faulty_env ["hello"] ["hello"] [] [] []
           (mkException "PermissionError" "/readonly")); reflexivity.
Defined.

Lemma search_knowledge_base_propagates_witness :
  query_engine faulty_ready_env = Some faulty_engine
  /\ query faulty_engine "crash" []
     = (Raise (mkException "TimeoutError" "crash"), [])
  /\ search_knowledge_base "crash"
       faulty_ready_env
     = (Raise (mkException "TimeoutError" "crash"),
        mkEnv (Some faulty_engine) []
          (trace faulty_ready_env ++ [Call_query faulty_engine "crash"])).
Proof.
  split; [reflexivity|]. split; [reflexivity|].
  apply (search_knowledge_base_propagates "crash"
           faulty_ready_env
           faulty_engine
           (mkException "TimeoutError" "crash") []); reflexivity.
Defined.

End OnTheFaultyPlatform.
